(** * regression-tree: dataset preparation and tree export

    A shallow embedding of [scripts/prepare_data.py] and
    [scripts/train_tree.py], with the properties of the stratified
    fixed-size splitter and of the tree exporter.

    The two scripts delegate to pandas, numpy and scikit-learn.  Calls into
    those libraries appear as section variables; what a property assumes of
    a library routine is a premise of its theorem, and a reference
    implementation of every routine shows that the premises can be met. *)

From Stdlib Require Import ZArith List String Bool Lia Arith PeanoNat Sorted.
From Stdlib Require Import Floats.SpecFloat.
Import ListNotations.

Set Implicit Arguments.
Set Warnings "-register-all".

(** ** Python values shared by both scripts *)

Module Py.

(** Python list subscription [l[i]]: a negative index counts from the end,
    an index out of range raises [IndexError] (here [None]). *)
Definition py_index {A : Type} (l : list A) (i : Z) : option A :=
  let n := Z.of_nat (List.length l) in
  if (0 <=? i)%Z then nth_error l (Z.to_nat i)
  else if (- n <=? i)%Z then nth_error l (Z.to_nat (n + i))
  else None.

Section Json.
(** [F] stands for the binary64 values that are only copied around. *)
Variable F : Type.

(** What [json.dumps] is given.  [JNaN] is the float [nan] that pandas
    returns for a reduction over no value. *)
Inductive json : Type :=
| JNull
| JBool (b : bool)
| JInt (z : Z)
| JFloat (x : F)
| JNaN
| JStr (s : string)
| JList (l : list json)
| JDict (d : list (string * json)).

(** A Python [dict] with string keys: insertion ordered, keys unique. *)
Definition dict : Type := list (string * json).

Definition dict_get (d : dict) (k : string) : option json :=
  match find (fun kv => String.eqb (fst kv) k) d with
  | Some kv => Some (snd kv)
  | None => None
  end.

Definition dict_has (d : dict) (k : string) : bool :=
  match dict_get d k with Some _ => true | None => false end.

(** [d[k] = v]: an existing key keeps its position, a new one goes last. *)
Fixpoint dict_set (d : dict) (k : string) (v : json) : dict :=
  match d with
  | [] => [(k, v)]
  | (k', v') :: r =>
      if String.eqb k' k then (k, v) :: r else (k', v') :: dict_set r k v
  end.

(** [d.update(kvs)], and the display [{k1: v1, ...}] as an update of [{}]. *)
Definition dict_update (d : dict) (kvs : list (string * json)) : dict :=
  fold_left (fun acc kv => dict_set acc (fst kv) (snd kv)) kvs d.

Definition dict_of (kvs : list (string * json)) : dict := dict_update [] kvs.
End Json.

Arguments JNull {F}.
Arguments JBool {F} b.
Arguments JInt {F} z.
Arguments JNaN {F}.
Arguments JStr {F} s.

(** The option monad carries the exceptions of [train_tree.py], whose
    claims do not tell them apart. *)
Definition obind {A B : Type} (m : option A) (f : A -> option B) : option B :=
  match m with Some a => f a | None => None end.

End Py.

Notation "x <-? m ;; k" := (Py.obind m (fun x => k))
  (at level 61, m at next level, right associativity).

(** ** scripts/train_tree.py *)

Module TrainTree.
Import Py.

Section Exporter.
Variable F : Type.

(** The arrays of sklearn's [tree_] object that the exporter reads,
    indexed by node id. *)
Record Tree : Type := mkTree {
  node_count : nat;
  children_left : list Z;
  children_right : list Z;
  feature : list Z;
  threshold : list F;
  n_node_samples : list Z;
  impurity : list F;
  value : list (list (list F))
}.

Variable sk : Tree.
Variable feature_names : list string.

(** [node_dict(i)], lines 45-65.  [i] comes from [range], so array
    subscription is [nth_error]; [feature_names] is a Python list. *)
Definition node_dict (i : nat) : option (dict F) :=
  l <-? nth_error (children_left sk) i ;;
  r <-? nth_error (children_right sk) i ;;
  let is_leaf := (l =? r)%Z in
  ns <-? nth_error (n_node_samples sk) i ;;
  imp <-? nth_error (impurity sk) i ;;
  v2 <-? nth_error (value sk) i ;;
  v1 <-? nth_error v2 0 ;;
  v <-? nth_error v1 0 ;;
  let d := dict_of
    [ ("id"%string, JInt (Z.of_nat i));
      ("isLeaf"%string, JBool is_leaf);
      ("nSamples"%string, JInt ns);
      ("impurity"%string, JFloat imp);
      ("value"%string, JFloat v) ] in
  if negb is_leaf then
    feat_idx <-? nth_error (feature sk) i ;;
    name <-? py_index feature_names feat_idx ;;
    th <-? nth_error (threshold sk) i ;;
    Some (dict_update d
      [ ("feature"%string, JStr name);
        ("featureIndex"%string, JInt feat_idx);
        ("threshold"%string, JFloat th);
        ("left"%string, JInt l);
        ("right"%string, JInt r) ])
  else Some d.

(** The loop of lines 67-68: [nodes.append(node_dict(i))] for each [i]. *)
Fixpoint export_loop (ids : list nat) (nodes : list (json F))
  : option (list (json F)) :=
  match ids with
  | [] => Some nodes
  | i :: rest =>
      d <-? node_dict i ;;
      export_loop rest (nodes ++ [JDict d])
  end.

Definition export_tree_json : option (dict F) :=
  nodes <-? export_loop (seq 0 (node_count sk)) [] ;;
  Some (dict_of [ ("root"%string, JInt 0%Z); ("nodes"%string, JList nodes) ]).
End Exporter.

(** What sklearn guarantees of a tree fitted on [n_features] columns: every
    array has one entry per node, the value array has shape
    [(node_count, 1, 1)], and a node with two different children splits on
    a feature index in [0, n_features). *)
Definition interior_ok (n_features : nat) (lrf : Z * Z * Z) : bool :=
  let '(l, r, f) := lrf in
  (l =? r)%Z || ((0 <=? f)%Z && (f <? Z.of_nat n_features)%Z).

Definition value_ok {F : Type} (v : list (list F)) : bool :=
  match v with (_ :: _) :: _ => true | _ => false end.

Definition fitted_ok {F : Type} (n_features : nat) (t : Tree F) : bool :=
  (List.length (children_left t) =? node_count t)
  && (List.length (children_right t) =? node_count t)
  && (List.length (feature t) =? node_count t)
  && (List.length (threshold t) =? node_count t)
  && (List.length (n_node_samples t) =? node_count t)
  && (List.length (impurity t) =? node_count t)
  && (List.length (value t) =? node_count t)
  && forallb value_ok (value t)
  && forallb (interior_ok n_features)
       (combine (combine (children_left t) (children_right t)) (feature t)).

(** *** [main], lines 89-125 *)

Section Main.
Variable F : Type.

(** Order and midpoint of the column values.  [leb] is [<=] on floats and
    [mean2 a b] is what numpy's median does with the two middle values of
    an even-sized column, [(a + b) / 2]. *)
Variable leb : F -> F -> bool.
Variable mean2 : F -> F -> F.

(** A pandas DataFrame as [read_csv] returns it: named columns, each
    holding one value per row, and the number of rows. *)
Record DataFrame : Type := mkDF {
  columns : list (string * list F);
  nrows : nat
}.

Definition column_names (df : DataFrame) : list string :=
  map fst (columns df).

(** [df[name]]: [KeyError] when no column has the name; with several
    columns of that name the result is a frame, on which [float(...)] and
    [to_numpy] of a series fail. *)
Definition df_col (df : DataFrame) (name : string) : option (list F) :=
  match filter (fun c => String.eqb (fst c) name) (columns df) with
  | [c] => Some (snd c)
  | _ => None
  end.

(** [df.drop(columns=[name])]: [KeyError] when the label is absent. *)
Definition df_drop (df : DataFrame) (name : string) : option DataFrame :=
  if existsb (String.eqb name) (column_names df)
  then Some (mkDF (filter (fun c => negb (String.eqb (fst c) name)) (columns df))
                  (nrows df))
  else None.

(** A cell that [read_csv] finds empty holds [nan], the one float that is
    not [<=] itself. *)
Definition notna (v : F) : bool := leb v v.

(** [Series.dropna()] *)
Definition dropna (l : list F) : list F := filter notna l.

(** [Series.min()], [Series.max()]: missing cells are skipped
    ([skipna=True]); [nan] over no value. *)
Definition series_min (l : list F) : json F :=
  match dropna l with
  | [] => JNaN
  | x :: r => JFloat (fold_left (fun m v => if leb v m then v else m) r x)
  end.

Definition series_max (l : list F) : json F :=
  match dropna l with
  | [] => JNaN
  | x :: r => JFloat (fold_left (fun m v => if leb m v then v else m) r x)
  end.

Fixpoint insert_sorted (x : F) (l : list F) : list F :=
  match l with
  | [] => [x]
  | y :: r => if leb x y then x :: y :: r else y :: insert_sorted x r
  end.

Definition sort_values (l : list F) : list F :=
  fold_right insert_sorted [] l.

(** [Series.median()]: the middle of the sorted values that are not
    missing, or the mean of the two middle ones; [nan] over no value. *)
Definition series_median (l : list F) : json F :=
  let s := sort_values (dropna l) in
  let n := List.length s in
  if Nat.even n then
    match n, nth_error s (n / 2 - 1), nth_error s (n / 2) with
    | S _, Some a, Some b => JFloat (mean2 a b)
    | _, _, _ => JNaN
    end
  else
    match nth_error s (n / 2) with
    | Some a => JFloat a
    | None => JNaN
    end.

Definition stats (col : list F) : json F :=
  JDict (dict_of
    [ ("min"%string, series_min col);
      ("max"%string, series_max col);
      ("median"%string, series_median col) ]).

(** The hyper-parameters handed to [DecisionTreeRegressor]. *)
Record Params : Type := mkParams {
  p_max_depth : option Z;
  p_min_samples_leaf : Z;
  p_random_state : Z
}.

(** [DecisionTreeRegressor(...).fit(X, y)] followed by [.tree_]; [X] is
    given as its columns, in order.  [None] when [fit] raises. *)
Variable fit : list (list F) -> list F -> Params -> option (Tree F).

(** [train_tree], lines 23-38. *)
Definition train_tree (df : DataFrame) (target_col : string)
    (max_depth : option Z) (min_samples_leaf random_state : Z)
  : option (Tree F) :=
  X <-? df_drop df target_col ;;
  y <-? df_col df target_col ;;
  fit (map snd (columns X)) y (mkParams max_depth min_samples_leaf random_state).

Record Args : Type := mkArgs {
  a_target : string;
  a_max_depth : Z;
  a_min_samples_leaf : Z;
  a_random_state : Z
}.

Definition opt_int (o : option Z) : json F :=
  match o with Some z => JInt z | None => JNull end.

(** The dict comprehension of lines 112-119. *)
Fixpoint feature_stats (df : DataFrame) (names : list string) (acc : dict F)
  : option (dict F) :=
  match names with
  | [] => Some acc
  | name :: rest =>
      col <-? df_col df name ;;
      feature_stats df rest (dict_set acc name (stats col))
  end.

(** [main] from the frame read at line 89 to the two dictionaries that
    are dumped at lines 129-130: [(tree_json, meta)]. *)
Definition main (args : Args) (df : DataFrame) : option (dict F * dict F) :=
  let feature_names :=
    filter (fun c => negb (String.eqb c (a_target args))) (column_names df) in
  let max_depth :=
    if (a_max_depth args <=? 0)%Z then None else Some (a_max_depth args) in
  tree <-? train_tree df (a_target args) max_depth
             (a_min_samples_leaf args) (a_random_state args) ;;
  tree_json <-? export_tree_json tree feature_names ;;
  fstats <-? feature_stats df feature_names [] ;;
  tcol <-? df_col df (a_target args) ;;
  Some (tree_json,
        dict_of
          [ ("featureNames"%string, JList (map JStr feature_names));
            ("target"%string, JStr (a_target args));
            ("nTrain"%string, JInt (Z.of_nat (nrows df)));
            ("params"%string, JDict (dict_of
               [ ("max_depth"%string, opt_int max_depth);
                 ("min_samples_leaf"%string, JInt (a_min_samples_leaf args));
                 ("random_state"%string, JInt (a_random_state args)) ]));
            ("featureStats"%string, JDict fstats);
            ("targetStats"%string, stats tcol) ]).
End Main.

(** The feature-name list of line 90 and the hyper-parameters of lines
    95-97, as [main] computes them. *)
Definition names_of {F : Type} (args : Args) (df : DataFrame F) : list string :=
  filter (fun c => negb (String.eqb c (a_target args))) (column_names df).

Definition params_of (args : Args) : Params :=
  mkParams (if (a_max_depth args <=? 0)%Z then None else Some (a_max_depth args))
           (a_min_samples_leaf args) (a_random_state args).

(** The two shapes of a node record. *)
Definition leaf_dict {F : Type} (i : nat) (ns : Z) (imp v : F) : dict F :=
  [ ("id"%string, JInt (Z.of_nat i)); ("isLeaf"%string, JBool true);
    ("nSamples"%string, JInt ns); ("impurity"%string, JFloat imp);
    ("value"%string, JFloat v) ].

Definition split_dict {F : Type} (i : nat) (ns : Z) (imp v : F)
    (name : string) (fi : Z) (th : F) (l r : Z) : dict F :=
  [ ("id"%string, JInt (Z.of_nat i)); ("isLeaf"%string, JBool false);
    ("nSamples"%string, JInt ns); ("impurity"%string, JFloat imp);
    ("value"%string, JFloat v);
    ("feature"%string, JStr name); ("featureIndex"%string, JInt fi);
    ("threshold"%string, JFloat th); ("left"%string, JInt l);
    ("right"%string, JInt r) ].

(** [a <= b] as a proposition. *)
Definition le {F : Type} (leb : F -> F -> bool) (a b : F) : Prop := leb a b = true.

(** A statistics record [{min, max, median}] whose three entries are
    numbers with [min <= median <= max]. *)
Definition stats_ordered {F : Type} (leb : F -> F -> bool) (j : json F) : Prop :=
  exists d a m b,
    j = JDict d /\
    dict_get d "min" = Some (JFloat a) /\
    dict_get d "median" = Some (JFloat m) /\
    dict_get d "max" = Some (JFloat b) /\
    leb a m = true /\ leb m b = true.

(** The mean of two values of a column lies between them, as
    [(a + b) / 2] does on floats unless the sum overflows. *)
Definition mean_between {F : Type} (leb : F -> F -> bool) (mean2 : F -> F -> F)
    (col : list F) : Prop :=
  forall a b, In a col -> In b col -> leb a b = true ->
    leb a (mean2 a b) = true /\ leb (mean2 a b) b = true.

(** A statistics record whose three entries are [nan]. *)
Definition stats_nan {F : Type} (j : json F) : Prop :=
  exists d,
    j = JDict d /\
    dict_get d "min" = Some JNaN /\
    dict_get d "median" = Some JNaN /\
    dict_get d "max" = Some JNaN.

(** Two trees hold the same entries at position [i] of every array. *)
Definition same_entry {F : Type} (t t' : Tree F) (i : nat) : Prop :=
  nth_error (children_left t) i = nth_error (children_left t') i /\
  nth_error (children_right t) i = nth_error (children_right t') i /\
  nth_error (feature t) i = nth_error (feature t') i /\
  nth_error (threshold t) i = nth_error (threshold t') i /\
  nth_error (n_node_samples t) i = nth_error (n_node_samples t') i /\
  nth_error (impurity t) i = nth_error (impurity t') i /\
  nth_error (value t) i = nth_error (value t') i.

(** The keys that only an interior node carries. *)
Definition split_keys : list string :=
  [ "feature"; "featureIndex"; "threshold"; "left"; "right" ]%string.

End TrainTree.

(** ** binary64 arithmetic of the size computation *)

Module Float64.
Definition prec : Z := 53.
Definition emax : Z := 1024.

Definition float : Type := spec_float.

(** [float(z)] for an integer below [2^53] in magnitude. *)
Definition of_int (z : Z) : float := binary_normalize prec emax z 0 false.
Definition div : float -> float -> float := SFdiv prec emax.
Definition mul : float -> float -> float := SFmul prec emax.
Definition add : float -> float -> float := SFadd prec emax.
Definition leb : float -> float -> bool := SFleb.
Definition ltb : float -> float -> bool := SFltb.

(** [math.floor] and [math.ceil]; they raise on an infinity or a nan. *)
Definition floor (x : float) : option Z :=
  match x with
  | S754_zero _ => Some 0%Z
  | S754_finite s m e =>
      let v := if s then Z.neg m else Z.pos m in
      Some (if (0 <=? e)%Z then v * 2 ^ e else v / 2 ^ (- e))%Z
  | _ => None
  end.

Definition ceil (x : float) : option Z :=
  match x with
  | S754_zero _ => Some 0%Z
  | S754_finite s m e =>
      let v := if s then Z.neg m else Z.pos m in
      Some (if (0 <=? e)%Z then v * 2 ^ e else - ((- v) / 2 ^ (- e)))%Z
  | _ => None
  end.
End Float64.

(** ** Exceptions and the log of library work *)

Module Effects.
Inductive exn : Type :=
| AssertionError (msg : string) (info : list Z)
| SystemExit (msg : string) (info : list Z)
| ValueError (msg : string)
| IndexError.

Inductive result (A : Type) : Type :=
| Ok (a : A)
| Raise (e : exn).
Arguments Ok {A} a.
Arguments Raise {A} e.

(** The binning and sampling work a run performs, in order. *)
Inductive event : Type :=
| EvQcut
| EvSplit
| EvSample.

(** A computation yields the log of the work done and its outcome. *)
Definition M (A : Type) : Type := (list event * result A)%type.

Definition ret {A : Type} (a : A) : M A := ([], Ok a).

Definition bind {A B : Type} (m : M A) (f : A -> M B) : M B :=
  match m with
  | (log, Ok a) => let '(log', r) := f a in (log ++ log', r)
  | (log, Raise e) => (log, Raise e)
  end.

(** A library call: logged, and its exception propagates. *)
Definition call {A : Type} (ev : event) (r : result A) : M A := ([ev], r).

(** An operation that does no binning or sampling. *)
Definition lift {A : Type} (r : result A) : M A := ([], r).

Definition assert_ (b : bool) (msg : string) (info : list Z) : M unit :=
  if b then ret tt else ([], Raise (AssertionError msg info)).

Definition outcome {A : Type} (m : M A) : result A := snd m.
Definition work {A : Type} (m : M A) : list event := fst m.

Definition is_assertion_error {A : Type} (r : result A) : bool :=
  match r with Raise (AssertionError _ _) => true | _ => false end.

Definition is_ok {A : Type} (r : result A) : bool :=
  match r with Ok _ => true | _ => false end.
End Effects.

Notation "x <- m ;; k" := (Effects.bind m (fun x => k))
  (at level 61, m at next level, right associativity).
Notation "' p <- m ;; k" := (Effects.bind m (fun x => let p := x in k))
  (at level 61, p pattern, m at next level, right associativity).

(** ** Library routine: the sizes of sklearn's shuffle splits *)

Module Sklearn.
Import Effects.

(** [_validate_shuffle_split(n_samples, test_size, train_size)] for two
    float sizes: a proportion outside (0, 1) or a sum above 1 is rejected;
    the test count is rounded up, the train count down. *)
Definition validate_shuffle_split (n_samples : Z)
    (test_size train_size : Float64.float) : result (Z * Z) :=
  let zero := Float64.of_int 0 in
  let one := Float64.of_int 1 in
  if Float64.leb test_size zero || Float64.leb one test_size
  then Raise (ValueError "test_size out of range")
  else if Float64.leb train_size zero || Float64.leb one train_size
  then Raise (ValueError "train_size out of range")
  else if Float64.ltb one (Float64.add train_size test_size)
  then Raise (ValueError "The sum of test_size and train_size should be in the (0, 1) range")
  else
    match Float64.ceil (Float64.mul test_size (Float64.of_int n_samples)),
          Float64.floor (Float64.mul train_size (Float64.of_int n_samples)) with
    | Some n_test, Some n_train =>
        if (n_train + n_test >? n_samples)%Z
        then Raise (ValueError "The sum of train_size and test_size should be smaller than the number of samples")
        else if (n_train =? 0)%Z
        then Raise (ValueError "the resulting train set will be empty")
        else Ok (n_train, n_test)
    | _, _ => Raise (ValueError "cannot convert float to integer")
    end.
End Sklearn.

(** ** scripts/prepare_data.py *)

Module PrepareData.
Import Effects.

(** [df.iloc[idx]] on a frame given as its rows: a position out of bounds
    raises [IndexError]. *)
Fixpoint iloc {A : Type} (df : list A) (idx : list nat) : result (list A) :=
  match idx with
  | [] => Ok []
  | i :: rest =>
      match nth_error df i, iloc df rest with
      | Some row, Ok rows => Ok (row :: rows)
      | None, _ => Raise IndexError
      | _, Raise e => Raise e
      end
  end.

(** The categorical that [pd.qcut] returns: a code per record and the
    number of categories (bins). *)
Record Categorical : Type := mkCat {
  cat_codes : list Z;
  cat_categories : nat
}.

(** The seeds that [np.random.RandomState] accepts: no seed, or an
    integer in [0, 2**32 - 1]. *)
Definition seed_ok (rs : option Z) : bool :=
  match rs with
  | Some s => (0 <=? s)%Z && (s <? 2 ^ 32)%Z
  | None => true
  end.
Arguments seed_ok : simpl never.

Section Splitter.
(** [R] is a row of the feature table, [F] a target value. *)
Variables R F : Type.

(** [G] is the state of the process-wide generator that numpy consults
    when a routine gets no seed; [Some s] is the argument
    [random_state=s]. *)
Variable G : Type.

(** [pd.qcut(y, q=n_bins, duplicates="drop")] *)
Variable qcut : list F -> Z -> result Categorical.

(** [next(StratifiedShuffleSplit(n_splits=1, train_size=tp, test_size=sp,
    random_state=rs).split(indices.reshape(-1, 1), bins))] with
    [n = len(indices)], called as [sss_split g rs tp sp n bins]. *)
Variable sss_split :
  G -> option Z -> Float64.float -> Float64.float -> nat -> list Z ->
  result (list nat * list nat).

(** The positions that [DataFrame.sample(n=k, random_state=rs)] takes
    from a frame of [len] rows: [rs_choice g rs len k]. *)
Variable rs_choice : G -> option Z -> nat -> nat -> list nat.

(** [DataFrame.to_csv(path, index=False)], the bytes written. *)
Variable to_csv : list (R * F) -> string.

Variable g : G.

(** [make_stratify_bins], lines 34-42; [astype("category")] leaves a
    categorical as it is. *)
Definition make_stratify_bins (y : list F) (n_bins : Z) : M (list Z) :=
  binned <- call EvQcut (qcut y n_bins) ;;
  ret (cat_codes binned).

(** [df.sample(n=k, random_state=rs).reset_index(drop=True)]: the seed
    goes to [np.random.RandomState], which raises [ValueError] for an
    integer outside [0, 2**32 - 1]. *)
Definition sample (df : list (R * F)) (k : Z) (rs : option Z)
  : M (list (R * F)) :=
  call EvSample
    (if seed_ok rs
     then iloc df (rs_choice g rs (List.length df) (Z.to_nat k))
     else Raise (ValueError "Seed must be between 0 and 2**32 - 1")).

(** [stratified_fixed_sizes], lines 45-91.  [X_y] pairs each row of [X]
    with its target; the integer division of line 65 is exact binary64
    division for sizes below [2^53]. *)
Definition stratified_fixed_sizes (X : list R) (y : list F)
    (train_size test_size random_state n_bins : Z)
  : M (list (R * F) * list (R * F)) :=
  let n_total := Z.of_nat (List.length X) in
  _ <- assert_ ((0 <? train_size)%Z && (0 <? test_size)%Z)
         "train_size and test_size must be > 0" [] ;;
  _ <- assert_ (train_size + test_size <=? n_total)%Z
         "Requested sizes exceed dataset" [(train_size + test_size)%Z; n_total] ;;
  stratify_bins <- make_stratify_bins y n_bins ;;
  let train_prop := Float64.div (Float64.of_int train_size) (Float64.of_int n_total) in
  let test_prop := Float64.div (Float64.of_int test_size) (Float64.of_int n_total) in
  idx <- call EvSplit
           (sss_split g (Some random_state) train_prop test_prop
              (List.length X) stratify_bins) ;;
  let X_y := combine X y in
  train_df <- lift (iloc X_y (fst idx)) ;;
  test_df <- lift (iloc X_y (snd idx)) ;;
  train_df <- (if (Z.of_nat (List.length train_df) >? train_size)%Z
               then sample train_df train_size (Some random_state)
               else ret train_df) ;;
  test_df <- (if (Z.of_nat (List.length test_df) >? test_size)%Z
              then sample test_df test_size (Some (random_state + 1)%Z)
              else ret test_df) ;;
  ret (train_df, test_df).

Record Args : Type := mkArgs {
  a_train_size : Z;
  a_test_size : Z;
  a_random_state : Z;
  a_bins : Z
}.

(** [main], lines 105-131, from the loaded frame (its feature rows and
    its target column) to the contents of the two files. *)
Definition main (args : Args) (features : list R) (target : list F)
  : M (string * string) :=
  if (a_train_size args + a_test_size args >? Z.of_nat (List.length features))%Z
  then lift (Raise (SystemExit "Requested train+test exceeds dataset size"
               [(a_train_size args + a_test_size args)%Z;
                Z.of_nat (List.length features)]))
  else
    dfs <- stratified_fixed_sizes features target
             (a_train_size args) (a_test_size args)
             (a_random_state args) (a_bins args) ;;
    ret (to_csv (fst dfs), to_csv (snd dfs)).
End Splitter.

(** The proportion of line 65 or 66 for a requested size. *)
Definition props_of {R : Type} (X : list R) (size : Z) : Float64.float :=
  Float64.div (Float64.of_int size) (Float64.of_int (Z.of_nat (List.length X))).

(** How a subset leaves the trimming of lines 86-89: sampled down to
    [size] when it has more rows, untouched otherwise. *)
Definition trimmed {A G : Type} (rs_choice : G -> option Z -> nat -> nat -> list nat)
    (g : G) (seed : Z) (size : Z) (raw final : list A) : Prop :=
  ((Z.of_nat (List.length raw) > size)%Z /\
   seed_ok (Some seed) = true /\
   iloc raw (rs_choice g (Some seed) (List.length raw) (Z.to_nat size)) = Ok final)
  \/ ((Z.of_nat (List.length raw) <= size)%Z /\ final = raw).

End PrepareData.

(** ** Library routine: pandas' quantile cut *)

Module Pandas.
Import Effects PrepareData.

Section Qcut.
Variable F : Type.

(** [leb] is [<=] on floats.  A missing target is [nan], the one float
    that is not [<=] itself. *)
Variable leb : F -> F -> bool.

(** The edge that [Series.quantile] interpolates for the fraction [k/q],
    [0 < k < q], from the sorted values that are not missing.  Its
    floating-point value plays no part below. *)
Variable interior_edge : list F -> nat -> nat -> F.

Definition notna (v : F) : bool := TrainTree.notna leb v.
Definition isna (v : F) : bool := negb (notna v).
Definition ltb (a b : F) : bool := leb a b && negb (leb b a).
Definition eqb (a b : F) : bool := leb a b && leb b a.

(** Equality as [algos.unique] hashes floats: [==], and [nan] equal to
    [nan]. *)
Definition same (a b : F) : bool := eqb a b || (isna a && isna b).

Definition sort_values (l : list F) : list F := TrainTree.sort_values leb l.

(** [y.dropna().quantile(np.linspace(0, 1, q + 1))]: the first edge is
    the minimum and the last the maximum.  [None] when no value is left:
    every edge is then [nan]. *)
Definition quantile_edges (y : list F) (q : nat) : option (list F) :=
  match sort_values (TrainTree.dropna leb y) with
  | [] => None
  | lo :: rest =>
      let s := lo :: rest in
      Some (match q with
            | 0 => [lo]
            | S q' => lo :: map (fun k => interior_edge s k q) (seq 1 q')
                         ++ [last s lo]
            end)
  end.

(** [algos.unique]: first occurrences, in order. *)
Fixpoint unique (l : list F) : list F :=
  match l with
  | [] => []
  | x :: r => x :: filter (fun v => negb (same x v)) (unique r)
  end.

(** [bins.searchsorted(x, side="left")] on non-decreasing [bins]: the
    number of edges below [x]. *)
Definition searchsorted_left (bins : list F) (x : F) : nat :=
  List.length (filter (fun b => ltb b x) bins).

(** [_bins_to_cuts(x, bins, include_lowest=True, duplicates="drop")]:
    the bins that are kept; then [ids], with the lowest value moved into
    the first bin; then
    [na_mask = isna(x) | (ids == len(bins)) | (ids == 0)], and the code
    [ids - 1], or -1 under the mask. *)
Definition kept_bins (bins : list F) : list F :=
  if (List.length (unique bins) <? List.length bins)
     && negb (List.length bins =? 2)
  then unique bins else bins.

Definition bin_id (bins : list F) (x : F) : nat :=
  match bins with
  | b0 :: _ => if eqb x b0 then 1 else searchsorted_left bins x
  | [] => searchsorted_left bins x
  end.

Definition bin_code (bins : list F) (x : F) : Z :=
  let i := bin_id bins x in
  if isna x || (i =? List.length bins) || (i =? 0) then (-1)%Z
  else (Z.of_nat i - 1)%Z.

Definition bins_to_cuts (x : list F) (bins : list F) : Categorical :=
  let bins := kept_bins bins in
  mkCat (map (bin_code bins) x) (List.length bins - 1).

(** [pd.qcut(y, q, duplicates="drop")].  A bin count below 1 is rejected
    with [ValueError].  Over a series without a value, the empty series
    included, the [q + 1] edges are all [nan]: for [q >= 2] they collapse
    to the one edge [nan], no bin is left and every record gets the code
    -1; for [q = 1] the two edges are kept ([len(bins) != 2] is false),
    the one label is the interval from [nan] to [nan], and [Categorical]
    rejects a null category with [ValueError]. *)
Definition qcut (y : list F) (q : Z) : result Categorical :=
  if (q <? 1)%Z then Raise (ValueError "the number of quantiles must be positive")
  else
    match quantile_edges y (Z.to_nat q) with
    | Some bins => Ok (bins_to_cuts y bins)
    | None =>
        if (q =? 1)%Z then Raise (ValueError "Categorical categories cannot be null")
        else Ok (mkCat (map (fun _ => (-1)%Z) y) 0)
    end.
End Qcut.
End Pandas.

(** ** Reference implementations of the assumed routines *)

Module Reference.
Import Effects PrepareData.

(** A splitter with sklearn's checks and sizes that takes the first rows
    instead of shuffling.  The state of the process-wide generator is a
    number. *)
Definition ref_split (g : nat) (rs : option Z)
    (train_prop test_prop : Float64.float) (n : nat) (bins : list Z)
  : result (list nat * list nat) :=
  if negb (List.length bins =? n)
  then Raise (ValueError "inconsistent numbers of samples")
  else
    match Sklearn.validate_shuffle_split (Z.of_nat n) test_prop train_prop with
    | Raise e => Raise e
    | Ok (n_train, n_test) =>
        let classes := nodup Z.eq_dec bins in
        if existsb (fun c => count_occ Z.eq_dec bins c <? 2) classes
        then Raise (ValueError "The least populated class in y has only 1 member")
        else if (n_train <? Z.of_nat (List.length classes))%Z
        then Raise (ValueError "train_size should be greater or equal to the number of classes")
        else if (n_test <? Z.of_nat (List.length classes))%Z
        then Raise (ValueError "test_size should be greater or equal to the number of classes")
        else Ok (seq 0 (Z.to_nat n_train), seq (Z.to_nat n_train) (Z.to_nat n_test))
    end.

(** A choice of [k] positions: the first [k] when seeded; without a seed
    the first or the last [k], as the process-wide generator decides. *)
Definition ref_choice (g : nat) (rs : option Z) (len k : nat) : list nat :=
  match rs with
  | Some _ => seq 0 k
  | None => if Nat.even g then seq 0 k else seq (len - k) k
  end.

(** Nearest-rank interior quantile edges on integers. *)
Definition ref_interior_edge (s : list Z) (k q : nat) : Z :=
  nth (k * (List.length s - 1) / q) s 0%Z.

Definition ref_qcut : list Z -> Z -> result Categorical :=
  Pandas.qcut Z.leb ref_interior_edge.

(** One line per record. *)
Definition ref_to_csv (rows : list (nat * Z)) : string :=
  String.concat "" (map (fun _ => "r"%string) rows).

(** A table of [n] rows, row [i] holding [i] with target [i]. *)
Definition table (n : nat) : list nat := seq 0 n.
Definition targets (n : nat) : list Z := map Z.of_nat (seq 0 n).

(** The splitter on [table n] with the reference routines, and the pair
    of subsets it returns. *)
Definition run (n : nat) (train_size test_size seed bins : Z)
  : M (list (nat * Z) * list (nat * Z)) :=
  stratified_fixed_sizes ref_qcut ref_split ref_choice 0
    (table n) (targets n) train_size test_size seed bins.

Definition run_subsets (n : nat) (train_size test_size seed bins : Z)
  : list (nat * Z) * list (nat * Z) :=
  match outcome (run n train_size test_size seed bins) with
  | Ok p => p
  | Raise _ => ([], [])
  end.

(** The three-node tree with one split and two leaves. *)
Definition tiny_tree : TrainTree.Tree Z :=
  TrainTree.mkTree 3 [1; -1; -1]%Z [2; -1; -1]%Z [0; -2; -2]%Z
    [5; -2; -2]%Z [4; 2; 2]%Z [10; 0; 0]%Z [[[7]]; [[3]]; [[11]]]%Z.

(** [tiny_tree] in arrays with room for five nodes, as a tree builder that
    allocates ahead leaves them. *)
Definition roomy_tree : TrainTree.Tree Z :=
  TrainTree.mkTree 3 [1; -1; -1; 0; 0]%Z [2; -1; -1; 9; 0]%Z [0; -2; -2; 7; 7]%Z
    [5; -2; -2; 0; 0]%Z [4; 2; 2; 0; 0]%Z [10; 0; 0; 0; 0]%Z
    [[[7]]; [[3]]; [[11]]; []; []]%Z.


(** A fit that returns [tiny_tree] when there is at least one feature
    column and one sample. *)
Definition ref_fit (X : list (list Z)) (y : list Z) (p : TrainTree.Params)
  : option (TrainTree.Tree Z) :=
  match X, y with
  | _ :: _, _ :: _ => Some tiny_tree
  | _, _ => None
  end.

(** The mean of two integers; the columns below have middle values of
    even sum, for which the division is exact. *)
Definition mean2Z (a b : Z) : Z := ((a + b) / 2)%Z.

Definition tiny_frame : TrainTree.DataFrame Z :=
  TrainTree.mkDF
    [ ("MedInc"%string, [3; 1; 5; 8]%Z);
      ("MedHouseVal"%string, [4; 9; 1; 6]%Z);
      ("HouseAge"%string, [5; 5; 7; 2]%Z) ] 4.

Definition tiny_args : TrainTree.Args :=
  TrainTree.mkArgs "MedHouseVal" 6 20 42.

(** The pair [(tree_json, meta)] that [main] gives on [tiny_frame]. *)
Definition tiny_run : Py.dict Z * Py.dict Z :=
  match TrainTree.main Z.leb mean2Z ref_fit tiny_args tiny_frame with
  | Some out => out
  | None => ([], [])
  end.

(** Numbers with a missing value: [None] is [nan], which is [<=] nothing,
    itself included. *)
Definition leb_nan (a b : option Z) : bool :=
  match a, b with
  | Some x, Some y => (x <=? y)%Z
  | _, _ => false
  end.

Definition mean2_nan (a b : option Z) : option Z :=
  match a, b with
  | Some x, Some y => Some (mean2Z x y)
  | _, _ => None
  end.

(** [tiny_tree] over these numbers. *)
Definition nan_tree : TrainTree.Tree (option Z) :=
  TrainTree.mkTree 3 [1; -1; -1]%Z [2; -1; -1]%Z [0; -2; -2]%Z
    [Some 5; Some (-2); Some (-2)]%Z [4; 2; 2]%Z [Some 10; Some 0; Some 0]%Z
    [[[Some 7]]; [[Some 3]]; [[Some 11]]]%Z.

(** A fit that, as sklearn's tree does, takes missing feature cells but
    neither a missing target nor a table without rows or columns. *)
Definition nan_fit (X : list (list (option Z))) (y : list (option Z))
    (p : TrainTree.Params) : option (TrainTree.Tree (option Z)) :=
  match X, y with
  | _ :: _, _ :: _ =>
      if forallb (TrainTree.notna leb_nan) y then Some nan_tree else None
  | _, _ => None
  end.

(** [tiny_frame] read from a file in which the second MedInc cell and the
    whole HouseAge column are empty. *)
Definition gappy_frame : TrainTree.DataFrame (option Z) :=
  TrainTree.mkDF
    [ ("MedInc"%string, [Some 3; None; Some 5; Some 8]%Z);
      ("MedHouseVal"%string, [Some 4; Some 9; Some 1; Some 6]%Z);
      ("HouseAge"%string, [None; None; None; None]) ] 4.

(** binary64 columns: the mean [(a + b) / 2] of the two middle values, the
    float [2^1023], whose double is no finite float, a one-leaf tree, a
    fit as [nan_fit], and a table with that float twice in a column. *)
Definition mean2_f64 (a b : Float64.float) : Float64.float :=
  Float64.div (Float64.add a b) (Float64.of_int 2).

Definition huge : Float64.float := Float64.of_int (2 ^ 1023).

Definition f64_tree : TrainTree.Tree Float64.float :=
  TrainTree.mkTree 1 [-1]%Z [-1]%Z [-2]%Z [Float64.of_int (-2)] [2]%Z
    [Float64.of_int 0] [[[Float64.of_int 1]]].

Definition f64_fit (X : list (list Float64.float)) (y : list Float64.float)
    (p : TrainTree.Params) : option (TrainTree.Tree Float64.float) :=
  match X, y with
  | _ :: _, _ :: _ =>
      if forallb (TrainTree.notna Float64.leb) y then Some f64_tree else None
  | _, _ => None
  end.

Definition huge_frame : TrainTree.DataFrame Float64.float :=
  TrainTree.mkDF
    [ ("MedInc"%string, [huge; huge]);
      ("MedHouseVal"%string, [Float64.of_int 1; Float64.of_int 2]) ] 2.



Definition gappy_run : Py.dict (option Z) * Py.dict (option Z) :=
  match TrainTree.main leb_nan mean2_nan nan_fit tiny_args gappy_frame with
  | Some out => out
  | None => ([], [])
  end.
End Reference.

(** * Properties *)

(** ** The tree exporter *)

Module TrainTreeSpec.
Import Py TrainTree.

Section ExporterFacts.
Variable F : Type.
Variable t : Tree F.
Variable names : list string.

Lemma node_dict_inv i d :
  node_dict t names i = Some d ->
  exists l r ns imp v,
    nth_error (children_left t) i = Some l /\
    nth_error (children_right t) i = Some r /\
    ((l = r /\ d = leaf_dict i ns imp v) \/
     (l <> r /\ exists fi name th,
         nth_error (feature t) i = Some fi /\
         py_index names fi = Some name /\
         d = split_dict i ns imp v name fi th l r)).
Proof.
  unfold node_dict, obind. intros H.
  destruct (nth_error (children_left t) i) as [l|] eqn:El; [|discriminate].
  destruct (nth_error (children_right t) i) as [r|] eqn:Er; [|discriminate].
  destruct (nth_error (n_node_samples t) i) as [ns|]; [|discriminate].
  destruct (nth_error (impurity t) i) as [imp|]; [|discriminate].
  destruct (nth_error (value t) i) as [v2|]; [|discriminate].
  destruct (nth_error v2 0) as [v1|]; [|discriminate].
  destruct (nth_error v1 0) as [v|]; [|discriminate].
  exists l, r, ns, imp, v. split; [reflexivity|]. split; [reflexivity|].
  destruct (Z.eqb_spec l r) as [e|ne]; simpl in H.
  - left. split; [exact e|]. injection H as <-. reflexivity.
  - right. split; [exact ne|].
    destruct (nth_error (feature t) i) as [fi|] eqn:Ef; [|discriminate].
    destruct (py_index names fi) as [name|] eqn:En; [|discriminate].
    destruct (nth_error (threshold t) i) as [th|]; [|discriminate].
    exists fi, name, th. split; [reflexivity|]. split; [exact En|].
    injection H as <-. reflexivity.
Qed.

(** The loop appends one record per id, in order. *)
Lemma export_loop_spec ids : forall acc nodes,
  export_loop t names ids acc = Some nodes ->
  exists ds, nodes = acc ++ map (@JDict F) ds /\
             Forall2 (fun i d => node_dict t names i = Some d) ids ds.
Proof.
  induction ids as [|i rest IH]; intros acc nodes H; simpl in H.
  - injection H as <-. exists []. split; [now rewrite app_nil_r | constructor].
  - unfold obind in H. destruct (node_dict t names i) as [d|] eqn:Ed; [|discriminate].
    apply IH in H. destruct H as (ds & -> & HF).
    exists (d :: ds). split; [now rewrite <- app_assoc | now constructor].
Qed.

Lemma export_loop_total ids : forall acc,
  Forall (fun i => node_dict t names i <> None) ids ->
  export_loop t names ids acc <> None.
Proof.
  induction ids as [|i rest IH]; intros acc H; simpl.
  - discriminate.
  - inversion H as [|? ? Hi Hr]; subst. unfold obind.
    destruct (node_dict t names i); [now apply IH | contradiction].
Qed.

Lemma export_inv out :
  export_tree_json t names = Some out ->
  exists ds,
    out = [ ("root"%string, JInt 0%Z); ("nodes"%string, JList (map (@JDict F) ds)) ] /\
    Forall2 (fun i d => node_dict t names i = Some d) (seq 0 (node_count t)) ds.
Proof.
  unfold export_tree_json, obind. intros H.
  destruct (export_loop t names (seq 0 (node_count t)) []) as [nodes|] eqn:E;
    [|discriminate].
  apply export_loop_spec in E. destruct E as (ds & -> & HF).
  exists ds. split; [|exact HF]. injection H as <-. reflexivity.
Qed.

Lemma Forall2_seq_nth (P : nat -> dict F -> Prop) ds : forall start n,
  Forall2 P (seq start n) ds ->
  List.length ds = n /\
  forall i d, nth_error ds i = Some d -> P (start + i) d.
Proof.
  induction ds as [|d0 ds IH]; intros start n H.
  - inversion H as [E|]; subst. destruct n; [|discriminate].
    split; [reflexivity|]. intros [|i] d Hd; discriminate.
  - destruct n as [|n]; [inversion H|]. simpl in H.
    inversion H as [|? ? ? ? H0 Hr]; subst.
    apply IH in Hr. destruct Hr as [Hl Hn]. split; [simpl; congruence|].
    intros [|i] d Hd; simpl in Hd.
    + injection Hd as <-. now rewrite Nat.add_0_r.
    + rewrite <- Nat.add_succ_comm. now apply Hn.
Qed.

Lemma nth_error_lt {A} (l : list A) i :
  i < List.length l -> exists x, nth_error l i = Some x.
Proof.
  intros H. destruct (nth_error l i) eqn:E; [eauto|].
  apply nth_error_None in E. lia.
Qed.

Lemma nth_error_Some_lt {A} (l : list A) i x :
  nth_error l i = Some x -> i < List.length l.
Proof. intros H. apply nth_error_Some. congruence. Qed.

Lemma nth_error_combine_Some {A B} (l : list A) (l' : list B) : forall i a b,
  nth_error l i = Some a -> nth_error l' i = Some b ->
  nth_error (combine l l') i = Some (a, b).
Proof.
  revert l'. induction l as [|x l IH]; intros [|y l'] [|i] a b Ha Hb;
    simpl in *; try discriminate.
  - congruence.
  - now apply IH.
Qed.

Lemma fitted_feature_range n_features i l r fi :
  fitted_ok n_features t = true ->
  nth_error (children_left t) i = Some l ->
  nth_error (children_right t) i = Some r ->
  nth_error (feature t) i = Some fi ->
  l <> r ->
  (0 <= fi)%Z /\ (fi < Z.of_nat n_features)%Z.
Proof.
  unfold fitted_ok. intros H El Er Ef ne.
  apply andb_prop in H. destruct H as [_ H].
  rewrite forallb_forall in H. specialize (H (l, r, fi)).
  assert (Hin : In (l, r, fi)
            (combine (combine (children_left t) (children_right t)) (feature t))).
  { apply nth_error_In with (n := i).
    apply nth_error_combine_Some; [|exact Ef].
    apply nth_error_combine_Some; assumption. }
  specialize (H Hin). simpl in H.
  destruct (Z.eqb_spec l r); [contradiction|]. simpl in H.
  apply andb_prop in H. destruct H as [E1 E2].
  apply Z.leb_le in E1. apply Z.ltb_lt in E2. now split.
Qed.

Lemma fitted_node_dict n_features i :
  fitted_ok n_features t = true ->
  n_features <= List.length names ->
  i < node_count t ->
  node_dict t names i <> None.
Proof.
  unfold fitted_ok. intros H Hn Hi.
  repeat (apply andb_prop in H; destruct H as [H ?]).
  repeat match goal with
         | E : (_ =? _) = true |- _ => apply Nat.eqb_eq in E
         end.
  destruct (@nth_error_lt _ (children_left t) i) as [l El]; [lia|].
  destruct (@nth_error_lt _ (children_right t) i) as [r Er]; [lia|].
  destruct (@nth_error_lt _ (feature t) i) as [fi Ef]; [lia|].
  destruct (@nth_error_lt _ (threshold t) i) as [th Eth]; [lia|].
  destruct (@nth_error_lt _ (n_node_samples t) i) as [ns Ens]; [lia|].
  destruct (@nth_error_lt _ (impurity t) i) as [imp Ei]; [lia|].
  destruct (@nth_error_lt _ (value t) i) as [v2 Ev]; [lia|].
  unfold node_dict, obind. rewrite El, Er, Ens, Ei, Ev.
  match goal with E : forallb value_ok _ = true |- _ =>
    rewrite forallb_forall in E; specialize (E v2 (nth_error_In _ _ Ev)) end.
  destruct v2 as [|[|v v1] v2]; try discriminate. simpl.
  destruct (Z.eqb_spec l r) as [e|ne]; simpl; [discriminate|].
  rewrite Ef, Eth.
  match goal with E : forallb (interior_ok _) _ = true |- _ =>
    rewrite forallb_forall in E; specialize (E (l, r, fi)) end.
  assert (Hin : In (l, r, fi)
            (combine (combine (children_left t) (children_right t)) (feature t))).
  { apply nth_error_In with (n := i).
    apply nth_error_combine_Some; [|exact Ef].
    apply nth_error_combine_Some; assumption. }
  match goal with E : In _ _ -> _ |- _ => specialize (E Hin) end.
  simpl in *. destruct (Z.eqb_spec l r); [contradiction|]. simpl in *.
  match goal with E : (_ && _) = true |- _ => apply andb_prop in E; destruct E as [E1 E2] end.
  apply Z.leb_le in E1. apply Z.ltb_lt in E2.
  unfold py_index. destruct (Z.leb_spec 0 fi); [|lia].
  destruct (@nth_error_lt _ names (Z.to_nat fi)) as [nm Enm]; [lia|].
  rewrite Enm. discriminate.
Qed.

Lemma export_nth out nodes i v :
  export_tree_json t names = Some out ->
  dict_get out "nodes" = Some (JList nodes) ->
  nth_error nodes i = Some v ->
  exists d, v = JDict d /\ node_dict t names i = Some d /\ i < node_count t.
Proof.
  intros H Hn Hv. apply export_inv in H. destruct H as (ds & -> & HF).
  injection Hn as <-.
  apply Forall2_seq_nth in HF. destruct HF as [Hl Hnth].
  rewrite nth_error_map in Hv.
  destruct (nth_error ds i) as [d|] eqn:Ed; [|discriminate].
  injection Hv as <-. exists d. split; [reflexivity|].
  split; [exact (Hnth i d Ed)|].
  rewrite <- Hl. eapply nth_error_Some_lt; exact Ed.
Qed.
End ExporterFacts.

(** C3: in the exported node list, a record has [isLeaf] true exactly when
    the node's left and right child ids are equal in the source arrays; a
    leaf record has none of the keys [feature], [featureIndex],
    [threshold], [left], [right]; an interior record has all of them, with
    [left] and [right] the child ids of the source arrays. *)
Theorem C3_leaf_iff_equal_children :
  forall (F : Type) (t : Tree F) (names : list string)
         (out : dict F) (nodes : list (json F)) (i : nat) (v : json F),
    export_tree_json t names = Some out ->
    dict_get out "nodes" = Some (JList nodes) ->
    nth_error nodes i = Some v ->
    exists d l r,
      v = JDict d /\
      nth_error (children_left t) i = Some l /\
      nth_error (children_right t) i = Some r /\
      dict_get d "isLeaf" = Some (JBool (l =? r)%Z) /\
      (dict_get d "isLeaf" = Some (JBool true) <-> l = r) /\
      (l = r -> Forall (fun k => dict_get d k = None) split_keys) /\
      (l <> r ->
         Forall (fun k => dict_get d k <> None) split_keys /\
         dict_get d "left" = Some (JInt l) /\
         dict_get d "right" = Some (JInt r)).
Proof.
  intros F t names out nodes i v H Hn Hv.
  destruct (@export_nth F t names out nodes i v H Hn Hv) as (d & -> & Hd & _).
  apply node_dict_inv in Hd.
  destruct Hd as (l & r & ns & imp & x & El & Er & [[e ->] | [ne (fi & nm & th & _ & _ & ->)]]);
    eexists; exists l, r; (split; [reflexivity|]); (split; [exact El|]); (split; [exact Er|]).
  - subst r. rewrite Z.eqb_refl. split; [reflexivity|]. split; [tauto|].
    split; [intros _; repeat constructor | intros C; now elim C].
  - apply Z.eqb_neq in ne. rewrite ne. apply Z.eqb_neq in ne.
    split; [reflexivity|]. split; [split; [discriminate | contradiction]|].
    split; [contradiction|]. intros _.
    split; [repeat constructor; discriminate | split; reflexivity].
Qed.

Lemma C3_witness :
  exists d l r,
    JDict (split_dict 0 4 10 7 "MedInc" 0 5 1 2)%Z = JDict d /\
    nth_error (children_left Reference.tiny_tree) 0 = Some l /\
    nth_error (children_right Reference.tiny_tree) 0 = Some r /\
    dict_get d "isLeaf" = Some (JBool (l =? r)%Z) /\
    (dict_get d "isLeaf" = Some (JBool true) <-> l = r) /\
    (l = r -> Forall (fun k => dict_get d k = None) split_keys) /\
    (l <> r ->
       Forall (fun k => dict_get d k <> None) split_keys /\
       dict_get d "left" = Some (JInt l) /\
       dict_get d "right" = Some (JInt r)).
Proof.
  eapply (@C3_leaf_iff_equal_children Z Reference.tiny_tree ["MedInc"%string]
            _ _ 0 _); reflexivity.
Defined.

(** C7: for a fitted tree, [export_tree_json] returns a dictionary whose
    [nodes] list has [node_count] entries, the entry at position [i] having
    [id] equal to [i], and whose [root] is 0. *)
Theorem C7_nodes_in_id_order :
  forall (F : Type) (t : Tree F) (names : list string),
    fitted_ok (List.length names) t = true ->
    exists out nodes,
      export_tree_json t names = Some out /\
      dict_get out "root" = Some (JInt 0%Z) /\
      dict_get out "nodes" = Some (JList nodes) /\
      List.length nodes = node_count t /\
      forall i, i < node_count t ->
        exists d, nth_error nodes i = Some (JDict d) /\
                  dict_get d "id" = Some (JInt (Z.of_nat i)).
Proof.
  intros F t names Hok.
  destruct (export_tree_json t names) as [out|] eqn:E.
  - destruct (@export_inv F t names out E) as (ds & -> & HF).
    eexists; exists (map (@JDict F) ds). split; [reflexivity|].
    split; [reflexivity|]. split; [reflexivity|].
    apply Forall2_seq_nth in HF. destruct HF as [Hl Hnth].
    split; [now rewrite length_map|].
    intros i Hi. destruct (@nth_error_lt (dict F) ds i) as [d Ed]; [rewrite Hl; exact Hi|].
    exists d. split; [apply map_nth_error; exact Ed|].
    specialize (Hnth i d Ed). simpl in Hnth. apply node_dict_inv in Hnth.
    destruct Hnth as (l & r & ns & imp & x & _ & _ & [[_ ->] | [_ (fi & nm & th & _ & _ & ->)]]);
      reflexivity.
  - exfalso. unfold export_tree_json, obind in E.
    destruct (export_loop t names (seq 0 (node_count t)) []) eqn:E'; [discriminate|].
    revert E'. apply export_loop_total. apply Forall_forall. intros i Hi.
    apply in_seq in Hi. eapply fitted_node_dict; [exact Hok | lia | lia].
Qed.

Lemma C7_witness :
  exists out nodes,
    export_tree_json Reference.tiny_tree ["MedInc"%string] = Some out /\
    dict_get out "root" = Some (JInt 0%Z) /\
    dict_get out "nodes" = Some (JList nodes) /\
    List.length nodes = 3 /\
    forall i, i < 3 ->
      exists d, nth_error nodes i = Some (JDict d) /\
                dict_get d "id" = Some (JInt (Z.of_nat i)).
Proof.
  apply (@C7_nodes_in_id_order Z Reference.tiny_tree ["MedInc"%string]).
  reflexivity.
Defined.
End TrainTreeSpec.

(** ** Minimum, median and maximum of a column *)

Module StatsFacts.
Import Py TrainTree.

Section Order.
Variable F : Type.
Variable leb : F -> F -> bool.

Local Abbreviation le := (TrainTree.le leb).

(** [<=] orders the values that are not missing. *)
Hypothesis leb_total : forall a b, le a a -> le b b -> le a b \/ le b a.
Hypothesis leb_trans : forall a b c, le a b -> le b c -> le a c.

Lemma dropna_In (l : list F) v : In v (dropna leb l) <-> In v l /\ le v v.
Proof. unfold dropna, notna. apply filter_In. Qed.

Lemma dropna_present (l : list F) : Forall (fun v => le v v) (dropna leb l).
Proof. apply Forall_forall. intros v Hv. now apply dropna_In in Hv. Qed.

Lemma dropna_none (l : list F) :
  (forall v, In v l -> leb v v = false) -> dropna leb l = [].
Proof.
  intros H. destruct (dropna leb l) as [|x r] eqn:E; [reflexivity|].
  assert (Hx : In x (dropna leb l)) by (rewrite E; now left).
  apply dropna_In in Hx. destruct Hx as [Hx Hp]. specialize (H _ Hx).
  unfold TrainTree.le in Hp. congruence.
Qed.

(** The running minimum is below its start and below every value seen. *)
Lemma fold_min_below (r : list F) : forall x,
  le x x -> Forall (fun v => le v v) r ->
  let m := fold_left (fun m v => if leb v m then v else m) r x in
  le m x /\ forall v, In v r -> le m v.
Proof.
  induction r as [|y r IH]; intros x Hx Hr; simpl.
  - split; [exact Hx | contradiction].
  - inversion Hr as [|? ? Hy Hr']; subst. destruct (leb y x) eqn:E.
    + destruct (IH y Hy Hr') as [H1 H2]. split; [eapply leb_trans; eassumption|].
      intros v [<-|Hv]; [exact H1 | now apply H2].
    + destruct (IH x Hx Hr') as [H1 H2]. split; [exact H1|].
      intros v [Hv|Hv]; [subst v|now apply H2].
      destruct (leb_total Hy Hx) as [C|C]; [unfold le in C; congruence|].
      eapply leb_trans; eassumption.
Qed.

Lemma fold_max_above (r : list F) : forall x,
  le x x -> Forall (fun v => le v v) r ->
  let m := fold_left (fun m v => if leb m v then v else m) r x in
  le x m /\ forall v, In v r -> le v m.
Proof.
  induction r as [|y r IH]; intros x Hx Hr; simpl.
  - split; [exact Hx | contradiction].
  - inversion Hr as [|? ? Hy Hr']; subst. destruct (leb x y) eqn:E.
    + destruct (IH y Hy Hr') as [H1 H2]. split; [eapply leb_trans; eassumption|].
      intros v [<-|Hv]; [exact H1 | now apply H2].
    + destruct (IH x Hx Hr') as [H1 H2]. split; [exact H1|].
      intros v [Hv|Hv]; [subst v|now apply H2].
      destruct (leb_total Hx Hy) as [C|C]; [unfold le in C; congruence|].
      eapply leb_trans; eassumption.
Qed.

Lemma insert_sorted_In x (l : list F) v :
  In v (insert_sorted leb x l) <-> v = x \/ In v l.
Proof.
  induction l as [|y r IH]; simpl.
  - intuition.
  - destruct (leb x y); simpl; rewrite ?IH; intuition.
Qed.

Lemma sort_values_In (l : list F) v : In v (sort_values leb l) <-> In v l.
Proof.
  induction l as [|x l IH]; simpl; [tauto|].
  rewrite insert_sorted_In, IH. intuition.
Qed.

Lemma insert_sorted_length x (l : list F) :
  List.length (insert_sorted leb x l) = S (List.length l).
Proof.
  induction l as [|y r IH]; simpl; [reflexivity|].
  destruct (leb x y); simpl; congruence.
Qed.

Lemma sort_values_length (l : list F) :
  List.length (sort_values leb l) = List.length l.
Proof.
  induction l as [|x l IH]; simpl; [reflexivity|].
  now rewrite insert_sorted_length, IH.
Qed.

Lemma insert_sorted_Sorted x (l : list F) :
  le x x -> Forall (fun v => le v v) l ->
  Sorted le l -> Sorted le (insert_sorted leb x l).
Proof.
  intros Hx. induction l as [|y r IH]; intros Hp Hs; simpl.
  - repeat constructor.
  - inversion Hp as [|? ? Hy Hp']; subst. destruct (leb x y) eqn:E.
    + constructor; [exact Hs | constructor; exact E].
    + inversion Hs as [|? ? Hr Hhd]; subst.
      constructor; [now apply IH|].
      assert (Hyx : le y x).
      { destruct (leb_total Hx Hy) as [C|C]; [unfold le in C; congruence | exact C]. }
      destruct r as [|z r]; simpl.
      * constructor. exact Hyx.
      * destruct (leb x z); constructor; [exact Hyx|].
        inversion Hhd; assumption.
Qed.

Lemma sort_values_Sorted (l : list F) :
  Forall (fun v => le v v) l -> Sorted le (sort_values leb l).
Proof.
  induction l as [|x l IH]; intros Hp; simpl; [constructor|].
  inversion Hp as [|? ? Hx Hp']; subst.
  change (Sorted le (insert_sorted leb x (sort_values leb l))).
  apply insert_sorted_Sorted; [exact Hx | | apply IH; exact Hp'].
  apply Forall_forall. intros v Hv.
  rewrite Forall_forall in Hp'. apply (Hp' v).
  apply (proj1 (sort_values_In l v)). exact Hv.
Qed.

Lemma Sorted_adjacent (s : list F) : forall i a b,
  Sorted le s ->
  nth_error s i = Some a -> nth_error s (S i) = Some b -> le a b.
Proof.
  induction s as [|x s IH]; intros i a b Hs Ha Hb.
  - destruct i; discriminate.
  - inversion Hs as [|? ? Hr Hhd]; subst. destruct i as [|i]; simpl in *.
    + injection Ha as <-. destruct s as [|y s]; [discriminate|].
      simpl in Hb. injection Hb as <-. inversion Hhd; assumption.
    + eapply IH; eassumption.
Qed.

Lemma nth_error_lt_ex {A} (l : list A) i :
  i < List.length l -> exists x, nth_error l i = Some x.
Proof.
  intros H. destruct (nth_error l i) eqn:E; [eauto|].
  apply nth_error_None in E. lia.
Qed.

Variable mean2 : F -> F -> F.

(** For a column with a value, minimum, median and maximum are numbers
    and in this order. *)
Lemma min_median_max (col : list F) :
  (exists v, In v col /\ le v v) ->
  mean_between leb mean2 col ->
  exists a m b,
    series_min leb col = JFloat a /\
    series_median leb mean2 col = JFloat m /\
    series_max leb col = JFloat b /\
    le a m /\ le m b.
Proof.
  intros (v0 & Hv0 & Hp0) mean2_between.
  pose proof (dropna_present col) as Hp.
  assert (Hne : dropna leb col <> []).
  { intros E. assert (H : In v0 (dropna leb col)) by (apply dropna_In; auto).
    rewrite E in H. contradiction. }
  unfold series_min, series_max, series_median.
  set (d := dropna leb col) in *.
  assert (Hmin : exists a,
            match d with
            | [] => JNaN
            | x :: r => JFloat (fold_left (fun m v => if leb v m then v else m) r x)
            end = JFloat a /\ forall v, In v d -> le a v).
  { destruct d as [|x r]; [contradiction|]. eexists. split; [reflexivity|].
    inversion Hp as [|? ? Hx Hr]; subst.
    destruct (fold_min_below Hx Hr) as [H1 H2]. intros v [<-|Hv]; auto. }
  assert (Hmax : exists b,
            match d with
            | [] => JNaN
            | x :: r => JFloat (fold_left (fun m v => if leb m v then v else m) r x)
            end = JFloat b /\ forall v, In v d -> le v b).
  { destruct d as [|x r]; [contradiction|]. eexists. split; [reflexivity|].
    inversion Hp as [|? ? Hx Hr]; subst.
    destruct (fold_max_above Hx Hr) as [H1 H2]. intros v [<-|Hv]; auto. }
  destruct Hmin as (a & Ea & Ha). destruct Hmax as (b & Eb & Hb).
  rewrite Ea, Eb. exists a.
  assert (Hmed : exists m,
            (let s := sort_values leb d in
             let n := List.length s in
             if Nat.even n then
               match n, nth_error s (n / 2 - 1), nth_error s (n / 2) with
               | S _, Some a, Some b => JFloat (mean2 a b)
               | _, _, _ => JNaN
               end
             else
               match nth_error s (n / 2) with
               | Some a => JFloat a
               | None => JNaN
               end) = JFloat m /\ le a m /\ le m b).
  { cbv zeta.
    pose proof (sort_values_length d) as Hlen.
    pose proof (sort_values_Sorted Hp) as Hs.
    assert (Hin : forall i v, nth_error (sort_values leb d) i = Some v -> In v d).
    { intros i v Hv. apply sort_values_In. eapply nth_error_In; exact Hv. }
    assert (Hcol : forall v, In v d -> In v col).
    { intros v Hv. now apply dropna_In in Hv. }
    set (s := sort_values leb d) in *.
    assert (Hpos : 0 < List.length s).
    { rewrite Hlen. destruct d; [contradiction | simpl; lia]. }
    destruct (Nat.even (List.length s)) eqn:Ev.
    - destruct (List.length s) as [|n'] eqn:En; [lia|].
      rewrite <- En in *.
      apply Nat.even_spec in Ev. destruct Ev as [k Hk].
      assert (Hk1 : List.length s / 2 = k).
      { rewrite Hk. rewrite Nat.mul_comm. apply Nat.div_mul. lia. }
      rewrite Hk1.
      destruct (@nth_error_lt_ex _ s (k - 1)) as [u Eu]; [lia|].
      destruct (@nth_error_lt_ex _ s k) as [w Ew]; [lia|].
      rewrite Eu, Ew. eexists. split; [reflexivity|].
      assert (Huw : le u w).
      { eapply Sorted_adjacent; [exact Hs | exact Eu |].
        replace (S (k - 1)) with k by lia. exact Ew. }
      destruct (mean2_between u w (Hcol _ (Hin _ _ Eu)) (Hcol _ (Hin _ _ Ew)) Huw)
        as [M1 M2].
      split.
      + apply leb_trans with u; [apply Ha; eapply Hin; exact Eu | exact M1].
      + apply leb_trans with w; [exact M2 | apply Hb; eapply Hin; exact Ew].
    - destruct (@nth_error_lt_ex _ s (List.length s / 2)) as [u Eu].
      { apply Nat.div_lt; lia. }
      rewrite Eu. eexists. split; [reflexivity|]. split; eauto. }
  destruct Hmed as (m & Em & H1 & H2). exists m, b. auto.
Qed.

(** Over a column without a value the three statistics are [nan]. *)
Lemma no_value_nan (col : list F) :
  (forall v, In v col -> leb v v = false) ->
  series_min leb col = JNaN /\
  series_median leb mean2 col = JNaN /\
  series_max leb col = JNaN.
Proof.
  intros H. unfold series_min, series_median, series_max.
  rewrite (dropna_none col H). repeat split.
Qed.
End Order.
End StatsFacts.

(** ** The metadata and the feature names *)

Module MainSpec.
Import Py TrainTree.

Section MainFacts.
Variable F : Type.
Variable leb : F -> F -> bool.
Variable mean2 : F -> F -> F.
Variable fit : list (list F) -> list F -> Params -> option (Tree F).

Lemma main_inv args df tj meta :
  main leb mean2 fit args df = Some (tj, meta) ->
  exists X y t fstats,
    df_drop df (a_target args) = Some X /\
    df_col df (a_target args) = Some y /\
    fit (map snd (columns X)) y (params_of args) = Some t /\
    export_tree_json t (names_of args df) = Some tj /\
    feature_stats leb mean2 df (names_of args df) [] = Some fstats /\
    dict_get meta "featureNames" = Some (JList (map (@JStr F) (names_of args df))) /\
    dict_get meta "featureStats" = Some (JDict fstats) /\
    dict_get meta "targetStats" = Some (stats leb mean2 y).
Proof.
  unfold main, train_tree, obind. fold (names_of args df). intros H.
  destruct (df_drop df (a_target args)) as [X|] eqn:EX; [|discriminate].
  destruct (df_col df (a_target args)) as [y|] eqn:Ey; [|discriminate].
  fold (params_of args) in H.
  destruct (fit (map snd (columns X)) y (params_of args)) as [t|] eqn:Et; [|discriminate].
  destruct (export_tree_json t (names_of args df)) as [tj'|] eqn:Ej; [|discriminate].
  destruct (feature_stats leb mean2 df (names_of args df) []) as [fs|] eqn:Es; [|discriminate].
  injection H as <- <-.
  exists X, y, t, fs. repeat (split; [first [reflexivity | eassumption]|]). reflexivity.
Qed.

Lemma dict_get_set (d : dict F) k v k' :
  dict_get (dict_set d k v) k' = if String.eqb k k' then Some v else dict_get d k'.
Proof.
  unfold dict_get. induction d as [|[k0 v0] d IH]; simpl.
  - destruct (String.eqb k k'); reflexivity.
  - destruct (String.eqb_spec k0 k) as [->|ne]; simpl.
    + destruct (String.eqb k k'); reflexivity.
    + destruct (String.eqb_spec k0 k') as [->|ne'].
      * destruct (String.eqb_spec k k'); [congruence | reflexivity].
      * exact IH.
Qed.

Lemma feature_stats_get df names : forall acc out,
  feature_stats leb mean2 df names acc = Some out ->
  forall k s, dict_get out k = Some s ->
    (In k names /\ exists col, df_col df k = Some col /\ s = stats leb mean2 col)
    \/ dict_get acc k = Some s.
Proof.
  induction names as [|n names IH]; intros acc out H k s Hk; simpl in H.
  - injection H as <-. now right.
  - unfold obind in H. destruct (df_col df n) as [col|] eqn:Ec; [|discriminate].
    destruct (IH _ _ H k s Hk) as [[Hin Hc]|Hacc].
    + left. split; [now right | exact Hc].
    + rewrite dict_get_set in Hacc. destruct (String.eqb_spec n k) as [->|ne].
      * injection Hacc as <-. left. split; [now left|]. eauto.
      * now right.
Qed.

Lemma feature_stats_has df names : forall acc out,
  feature_stats leb mean2 df names acc = Some out ->
  forall k, In k names \/ dict_get acc k <> None -> dict_get out k <> None.
Proof.
  induction names as [|n names IH]; intros acc out H k Hk; simpl in H.
  - injection H as <-. destruct Hk as [[]|Hk]; exact Hk.
  - unfold obind in H. destruct (df_col df n) as [col|] eqn:Ec; [|discriminate].
    apply (IH _ _ H k). destruct Hk as [[->|Hin]|Hacc].
    + right. rewrite dict_get_set, String.eqb_refl. discriminate.
    + now left.
    + right. rewrite dict_get_set. destruct (String.eqb n k); [discriminate | exact Hacc].
Qed.

Lemma df_col_In (df : DataFrame F) name col :
  df_col df name = Some col -> In (name, col) (columns df).
Proof.
  unfold df_col. intros H.
  destruct (filter (fun c => String.eqb (fst c) name) (columns df)) as [|c [|c' r]] eqn:E;
    try discriminate.
  injection H as <-.
  assert (Hin : In c (filter (fun c => String.eqb (fst c) name) (columns df))).
  { rewrite E. now left. }
  apply filter_In in Hin. destruct Hin as [Hin Hn].
  apply String.eqb_eq in Hn. destruct c as [n v]. simpl in *. now subst.
Qed.

Lemma df_drop_names (df : DataFrame F) name X :
  df_drop df name = Some X ->
  column_names X = filter (fun c => negb (String.eqb c name)) (column_names df).
Proof.
  unfold df_drop, column_names. intros H.
  destruct (existsb (String.eqb name) (map fst (columns df))); [|discriminate].
  injection H as <-. simpl.
  induction (columns df) as [|[n v] cs IH]; simpl; [reflexivity|].
  destruct (String.eqb n name); simpl; congruence.
Qed.

(** C10: the [featureNames] list of meta.json is the CSV's columns other
    than the target, in column order; the training matrix has exactly
    these columns in this order; and every interior node of tree.json
    carries a [featureIndex] that is a position of that list, with
    [feature] the name found there. *)
Theorem C10_feature_names_shared :
  forall (args : Args) (df : DataFrame F) (tj meta : dict F),
    (forall X y p t, fit X y p = Some t -> fitted_ok (List.length X) t = true) ->
    main leb mean2 fit args df = Some (tj, meta) ->
    exists X y t,
      df_drop df (a_target args) = Some X /\
      fit (map snd (columns X)) y (params_of args) = Some t /\
      column_names X = names_of args df /\
      dict_get meta "featureNames"
        = Some (JList (map (@JStr F) (names_of args df))) /\
      export_tree_json t (names_of args df) = Some tj /\
      forall nodes i d,
        dict_get tj "nodes" = Some (JList nodes) ->
        nth_error nodes i = Some (JDict d) ->
        dict_get d "isLeaf" = Some (JBool false) ->
        exists k nm,
          nth_error (feature t) i = Some (Z.of_nat k) /\
          dict_get d "featureIndex" = Some (JInt (Z.of_nat k)) /\
          nth_error (names_of args df) k = Some nm /\
          nth_error (column_names X) k = Some nm /\
          dict_get d "feature" = Some (JStr nm).
Proof.
  intros args df tj meta Hfit H.
  destruct (main_inv _ _ H) as (X & y & t & fs & EX & Ey & Et & Ej & _ & Hm & _).
  pose proof (df_drop_names _ _ EX) as HX. fold (names_of args df) in HX.
  exists X, y, t. repeat (split; [assumption|]).
  intros nodes i d Hn Hi Hleaf.
  destruct (@TrainTreeSpec.export_nth F t (names_of args df) tj nodes i _ Ej Hn Hi)
    as (d' & Hd' & Hd & _).
  injection Hd' as <-.
  apply TrainTreeSpec.node_dict_inv in Hd.
  destruct Hd as (l & r & ns & imp & x & El & Er &
                  [[_ ->] | [ne (fi & nm & th & Ef & En & ->)]]);
    [discriminate Hleaf|].
  pose proof (Hfit _ _ _ _ Et) as Hok.
  assert (Hr : (0 <= fi)%Z /\ (fi < Z.of_nat (List.length (map snd (columns X))))%Z)
    by (eapply TrainTreeSpec.fitted_feature_range; eassumption).
  destruct Hr as [Hlo Hhi].
  rewrite length_map in Hhi.
  exists (Z.to_nat fi), nm. rewrite Z2Nat.id by exact Hlo.
  unfold py_index in En. destruct (Z.leb_spec 0 fi); [|lia].
  split; [exact Ef|]. split; [reflexivity|]. split; [exact En|].
  split; [rewrite HX; exact En | reflexivity].
Qed.
End MainFacts.

Lemma stats_of_column F (leb : F -> F -> bool) (mean2 : F -> F -> F) (col : list F) :
  (forall a b, leb a a = true -> leb b b = true ->
     leb a b = true \/ leb b a = true) ->
  (forall a b c, leb a b = true -> leb b c = true -> leb a c = true) ->
  (exists v, In v col /\ leb v v = true) ->
  mean_between leb mean2 col ->
  stats_ordered leb (stats leb mean2 col).
Proof.
  intros Htot Htr Hv Hmid.
  destruct (@StatsFacts.min_median_max F leb Htot Htr mean2 col Hv Hmid)
    as (a & m & b & Ea & Em & Eb & H1 & H2).
  unfold stats. rewrite Ea, Em, Eb.
  eexists. exists a, m, b. split; [reflexivity|].
  repeat (split; [reflexivity|]). split; assumption.
Qed.

Lemma stats_of_empty_column F (leb : F -> F -> bool) (mean2 : F -> F -> F)
    (col : list F) :
  (forall v, In v col -> leb v v = false) ->
  stats_nan (stats leb mean2 col).
Proof.
  intros H. destruct (@StatsFacts.no_value_nan F leb mean2 col H) as (Ea & Em & Eb).
  unfold stats. rewrite Ea, Em, Eb. eexists. repeat split.
Qed.

(** C8 as amended: when [main] produces meta.json, [featureStats] has one
    entry per feature name, computed from the column of that name, and
    [targetStats] is computed from the target column.  The entry of a
    column that holds at least one value, and in which the mean of two
    values lies between them, holds numbers with
    [min <= median <= max]; the entry of a feature column without any
    value holds [nan] three times.  The values that are not missing are
    ordered by [<=]; [fit] rejects a target column that is empty or has a
    missing value. *)
Theorem C8_min_median_max :
  forall (F : Type) (leb : F -> F -> bool) (mean2 : F -> F -> F)
         (fit : list (list F) -> list F -> Params -> option (Tree F))
         (args : Args) (df : DataFrame F) (tj meta : dict F),
    (forall a b, leb a a = true -> leb b b = true ->
       leb a b = true \/ leb b a = true) ->
    (forall a b c, leb a b = true -> leb b c = true -> leb a c = true) ->
    (forall X y p t, fit X y p = Some t ->
       y <> [] /\ Forall (fun v => leb v v = true) y) ->
    main leb mean2 fit args df = Some (tj, meta) ->
    exists fstats tstats tcol,
      dict_get meta "featureStats" = Some (JDict fstats) /\
      dict_get meta "targetStats" = Some tstats /\
      df_col df (a_target args) = Some tcol /\
      (mean_between leb mean2 tcol -> stats_ordered leb tstats) /\
      (forall name, In name (names_of args df) ->
         exists col s,
           df_col df name = Some col /\
           dict_get fstats name = Some s /\
           ((exists v, In v col /\ leb v v = true) ->
            mean_between leb mean2 col -> stats_ordered leb s) /\
           ((forall v, In v col -> leb v v = false) -> stats_nan s)) /\
      (forall name s, dict_get fstats name = Some s -> In name (names_of args df)).
Proof.
  intros F leb mean2 fit args df tj meta Htot Htr Hfit H.
  destruct (@main_inv F leb mean2 fit args df tj meta H)
    as (X & y & t & fs & _ & Ey & Et & _ & Efs & _ & Hf & Ht).
  destruct (Hfit _ _ _ _ Et) as [Hy Hpy].
  exists fs, (stats leb mean2 y), y.
  split; [exact Hf|]. split; [exact Ht|]. split; [exact Ey|].
  split.
  { apply stats_of_column; try assumption.
    destruct y as [|v y]; [contradiction|]. exists v. split; [now left|].
    now inversion Hpy. }
  split.
  - intros name Hin.
    assert (Hs : dict_get fs name <> None)
      by (eapply feature_stats_has; [exact Efs | now left]).
    destruct (dict_get fs name) as [s|] eqn:Es; [|contradiction].
    destruct (@feature_stats_get F leb mean2 df _ _ _ Efs _ _ Es)
      as [[_ (col & Ec & ->)]|Hacc];
      [|discriminate Hacc].
    exists col, (stats leb mean2 col). split; [exact Ec|]. split; [reflexivity|].
    split; [now apply stats_of_column | apply stats_of_empty_column].
  - intros name s Hs.
    destruct (@feature_stats_get F leb mean2 df _ _ _ Efs _ _ Hs)
      as [[Hin _]|Hacc];
      [exact Hin | discriminate Hacc].
Qed.

Lemma Zleb_total (a b : Z) : (a <=? b)%Z = true \/ (b <=? a)%Z = true.
Proof. rewrite !Z.leb_le. lia. Qed.

Lemma Zleb_trans (a b c : Z) :
  (a <=? b)%Z = true -> (b <=? c)%Z = true -> (a <=? c)%Z = true.
Proof. rewrite !Z.leb_le. lia. Qed.

Lemma mean2Z_between (a b : Z) :
  (a <=? b)%Z = true ->
  (a <=? Reference.mean2Z a b)%Z = true /\ (Reference.mean2Z a b <=? b)%Z = true.
Proof.
  unfold Reference.mean2Z. rewrite !Z.leb_le. intros H.
  split; [apply Z.div_le_lower_bound | apply Z.div_le_upper_bound]; lia.
Qed.

Lemma ref_fit_nonempty X y p t : Reference.ref_fit X y p = Some t -> y <> [].
Proof. destruct X, y; simpl; congruence. Qed.

Lemma ref_fit_fitted X y p t :
  Reference.ref_fit X y p = Some t -> fitted_ok (List.length X) t = true.
Proof.
  destruct X as [|c X], y as [|v y]; simpl; try discriminate.
  intros H. injection H as <-. reflexivity.
Qed.

Lemma leb_nan_total (a b : option Z) :
  Reference.leb_nan a a = true -> Reference.leb_nan b b = true ->
  Reference.leb_nan a b = true \/ Reference.leb_nan b a = true.
Proof. destruct a, b; simpl; try discriminate. intros _ _. apply Zleb_total. Qed.

Lemma leb_nan_trans (a b c : option Z) :
  Reference.leb_nan a b = true -> Reference.leb_nan b c = true ->
  Reference.leb_nan a c = true.
Proof. destruct a, b, c; simpl; try discriminate. apply Zleb_trans. Qed.

Lemma mean2_nan_between (col : list (option Z)) :
  mean_between Reference.leb_nan Reference.mean2_nan col.
Proof.
  intros a b _ _. destruct a, b; simpl; try discriminate. apply mean2Z_between.
Qed.

Lemma nan_fit_target X y p t :
  Reference.nan_fit X y p = Some t ->
  y <> [] /\ Forall (fun v => Reference.leb_nan v v = true) y.
Proof.
  destruct X as [|c X], y as [|v y]; simpl; try discriminate.
  destruct (notna Reference.leb_nan v && forallb (notna Reference.leb_nan) y) eqn:E;
    [|discriminate].
  intros _. split; [discriminate|].
  change (forallb (notna Reference.leb_nan) (v :: y) = true) in E.
  rewrite forallb_forall in E. apply Forall_forall. exact E.
Qed.

Lemma C8_witness :
  exists fstats tstats tcol,
    dict_get (snd Reference.gappy_run) "featureStats" = Some (JDict fstats) /\
    dict_get (snd Reference.gappy_run) "targetStats" = Some tstats /\
    df_col Reference.gappy_frame "MedHouseVal" = Some tcol /\
    (mean_between Reference.leb_nan Reference.mean2_nan tcol ->
     stats_ordered Reference.leb_nan tstats) /\
    (forall name, In name (names_of Reference.tiny_args Reference.gappy_frame) ->
       exists col s,
         df_col Reference.gappy_frame name = Some col /\
         dict_get fstats name = Some s /\
         ((exists v, In v col /\ Reference.leb_nan v v = true) ->
          mean_between Reference.leb_nan Reference.mean2_nan col ->
          stats_ordered Reference.leb_nan s) /\
         ((forall v, In v col -> Reference.leb_nan v v = false) -> stats_nan s)) /\
    (forall name s, dict_get fstats name = Some s ->
       In name (names_of Reference.tiny_args Reference.gappy_frame)).
Proof.
  apply (@C8_min_median_max (option Z) Reference.leb_nan Reference.mean2_nan
           Reference.nan_fit Reference.tiny_args Reference.gappy_frame
           (fst Reference.gappy_run) (snd Reference.gappy_run)
           leb_nan_total leb_nan_trans nan_fit_target).
  reflexivity.
Defined.

(** On a table whose HouseAge column is empty [main] succeeds; the MedInc
    entry, over the three cells that hold a value, is 3, 5, 8, and the
    three statistics of HouseAge are [nan], which are in no order.  On a
    binary64 table whose MedInc column holds [2^1023] twice, the median
    [(2^1023 + 2^1023) / 2] is the infinity, above the maximum. *)
Lemma C8_empty_feature_column :
  (exists tj meta fstats,
     main Reference.leb_nan Reference.mean2_nan Reference.nan_fit
       Reference.tiny_args Reference.gappy_frame = Some (tj, meta) /\
     dict_get meta "featureStats" = Some (JDict fstats) /\
     dict_get fstats "MedInc"
       = Some (JDict [ ("min"%string, JFloat (Some 3%Z));
                       ("max"%string, JFloat (Some 8%Z));
                       ("median"%string, JFloat (Some 5%Z)) ]) /\
     dict_get fstats "HouseAge"
       = Some (JDict [ ("min"%string, JNaN); ("max"%string, JNaN);
                       ("median"%string, JNaN) ]) /\
     ~ stats_ordered Reference.leb_nan
         (JDict [ ("min"%string, JNaN); ("max"%string, JNaN);
                  ("median"%string, JNaN) ])) /\
  (exists tj meta fstats,
     main Float64.leb Reference.mean2_f64 Reference.f64_fit
       Reference.tiny_args Reference.huge_frame = Some (tj, meta) /\
     dict_get meta "featureStats" = Some (JDict fstats) /\
     dict_get fstats "MedInc"
       = Some (JDict [ ("min"%string, JFloat Reference.huge);
                       ("max"%string, JFloat Reference.huge);
                       ("median"%string, JFloat (S754_infinity false)) ]) /\
     Float64.leb (S754_infinity false) Reference.huge = false /\
     ~ stats_ordered Float64.leb
         (JDict [ ("min"%string, JFloat Reference.huge);
                  ("max"%string, JFloat Reference.huge);
                  ("median"%string, JFloat (S754_infinity false)) ])).
Proof.
  split.
  - eexists _, _, _. split; [vm_compute; reflexivity|].
    split; [reflexivity|]. split; [reflexivity|]. split; [reflexivity|].
    intros (d & a & m & b & E & Hmin & _). injection E as <-.
    vm_compute in Hmin. discriminate Hmin.
  - eexists _, _, _. split; [vm_compute; reflexivity|].
    split; [reflexivity|]. split; [vm_compute; reflexivity|].
    split; [vm_compute; reflexivity|].
    intros (d & a & m & b & E & _ & Hmed & Hmax & _ & H2). injection E as <-.
    vm_compute in Hmed. vm_compute in Hmax.
    injection Hmed as <-. injection Hmax as <-.
    vm_compute in H2. discriminate H2.
Qed.

Lemma C10_witness :
  exists X y t,
    df_drop Reference.tiny_frame "MedHouseVal" = Some X /\
    Reference.ref_fit (map snd (columns X)) y (params_of Reference.tiny_args) = Some t /\
    column_names X = ["MedInc"; "HouseAge"]%string /\
    dict_get (snd Reference.tiny_run) "featureNames"
      = Some (JList [JStr "MedInc"; JStr "HouseAge"]) /\
    export_tree_json t ["MedInc"; "HouseAge"]%string = Some (fst Reference.tiny_run) /\
    forall nodes i d,
      dict_get (fst Reference.tiny_run) "nodes" = Some (JList nodes) ->
      nth_error nodes i = Some (JDict d) ->
      dict_get d "isLeaf" = Some (JBool false) ->
      exists k nm,
        nth_error (feature t) i = Some (Z.of_nat k) /\
        dict_get d "featureIndex" = Some (JInt (Z.of_nat k)) /\
        nth_error ["MedInc"; "HouseAge"]%string k = Some nm /\
        nth_error (column_names X) k = Some nm /\
        dict_get d "feature" = Some (JStr nm).
Proof.
  apply (@C10_feature_names_shared Z Z.leb Reference.mean2Z Reference.ref_fit
           Reference.tiny_args Reference.tiny_frame
           (fst Reference.tiny_run) (snd Reference.tiny_run) ref_fit_fitted).
  reflexivity.
Defined.
End MainSpec.

(** ** The stratified fixed-size splitter *)

Module PrepareDataSpec.
Import Effects PrepareData.

Lemma iloc_length {A} (df : list A) idx : forall rows,
  iloc df idx = Ok rows -> List.length rows = List.length idx.
Proof.
  induction idx as [|i idx IH]; intros rows H; simpl in H.
  - injection H as <-. reflexivity.
  - destruct (nth_error df i); [|discriminate].
    destruct (iloc df idx) as [rs|e]; [|discriminate].
    injection H as <-. simpl. f_equal. now apply IH.
Qed.

Lemma iloc_no_assert {A} (df : list A) idx :
  is_assertion_error (iloc df idx) = false.
Proof.
  induction idx as [|i idx IH]; simpl; [reflexivity|].
  destruct (nth_error df i); [|reflexivity].
  destruct (iloc df idx) as [rs|e]; [reflexivity | exact IH].
Qed.

(** Rows taken from rows taken from a frame are rows of the frame, at
    positions taken from the first positions. *)
Lemma iloc_compose {A} (df : list A) idx rows : forall pos rows',
  iloc df idx = Ok rows ->
  iloc rows pos = Ok rows' ->
  exists idx', iloc idx pos = Ok idx' /\ iloc df idx' = Ok rows'.
Proof.
  intros pos. induction pos as [|p pos IH]; intros rows' H1 H2; simpl in H2.
  - injection H2 as <-. exists []. split; reflexivity.
  - destruct (nth_error rows p) as [row|] eqn:Ep; [|discriminate].
    destruct (iloc rows pos) as [rs|e] eqn:Er; [|discriminate].
    injection H2 as <-.
    destruct (IH rs H1 eq_refl) as (idx' & E1 & E2).
    assert (Hp : exists i, nth_error idx p = Some i /\ nth_error df i = Some row).
    { clear - H1 Ep. revert rows p H1 Ep.
      induction idx as [|i idx IHi]; intros rows p H1 Ep; simpl in H1.
      - injection H1 as <-. destruct p; discriminate.
      - destruct (nth_error df i) as [r0|] eqn:E0; [|discriminate].
        destruct (iloc df idx) as [rs0|e] eqn:Ers; [|discriminate].
        injection H1 as <-. destruct p as [|p]; simpl in *.
        + injection Ep as <-. eauto.
        + eapply IHi; eauto. }
    destruct Hp as (i & Ei & Edf).
    exists (i :: idx'). simpl. rewrite Ei, E1, Edf, E2. split; reflexivity.
Qed.

Lemma iloc_In {A} (df : list A) idx : forall rows x,
  iloc df idx = Ok rows -> In x rows -> In x df.
Proof.
  induction idx as [|i idx IH]; intros rows x H Hx; simpl in H.
  - injection H as <-. contradiction.
  - destruct (nth_error df i) as [r0|] eqn:E0; [|discriminate].
    destruct (iloc df idx) as [rs0|e] eqn:Ers; [|discriminate].
    injection H as <-. destruct Hx as [<-|Hx].
    + eapply nth_error_In; exact E0.
    + eapply IH; eauto.
Qed.

Section SplitterFacts.
Variables R F G : Type.
Variable qcut : list F -> Z -> result Categorical.
Variable sss_split :
  G -> option Z -> Float64.float -> Float64.float -> nat -> list Z ->
  result (list nat * list nat).
Variable rs_choice : G -> option Z -> nat -> nat -> list nat.
Variable to_csv : list (R * F) -> string.

Local Abbreviation sfs := (stratified_fixed_sizes qcut sss_split rs_choice).

Lemma sfs_ok_inv g (X : list R) (y : list F) a b seed bins train test :
  outcome (sfs g X y a b seed bins) = Ok (train, test) ->
  (0 < a)%Z /\ (0 < b)%Z /\ (a + b <= Z.of_nat (List.length X))%Z /\
  exists c itr ite tr0 te0,
    qcut y bins = Ok c /\
    sss_split g (Some seed) (props_of X a) (props_of X b)
              (List.length X) (cat_codes c) = Ok (itr, ite) /\
    iloc (combine X y) itr = Ok tr0 /\
    iloc (combine X y) ite = Ok te0 /\
    trimmed rs_choice g seed a tr0 train /\
    trimmed rs_choice g (seed + 1) b te0 test.
Proof.
  unfold stratified_fixed_sizes, make_stratify_bins, sample, outcome,
    bind, assert_, call, lift, ret, trimmed. fold (props_of X a) (props_of X b).
  destruct (Z.ltb_spec 0 a) as [Ha|Ha]; simpl; [|discriminate].
  destruct (Z.ltb_spec 0 b) as [Hb|Hb]; simpl; [|discriminate].
  destruct (Z.leb_spec (a + b) (Z.of_nat (List.length X))) as [Hs|Hs]; simpl;
    [|discriminate].
  destruct (qcut y bins) as [c|e]; simpl; [|discriminate].
  destruct (sss_split g (Some seed) (props_of X a) (props_of X b)
              (List.length X) (cat_codes c)) as [[itr ite]|e] eqn:Es; simpl; [|discriminate].
  destruct (iloc (combine X y) itr) as [tr0|e] eqn:Etr; simpl; [|discriminate].
  destruct (iloc (combine X y) ite) as [te0|e] eqn:Ete; simpl; [|discriminate].
  intros H. repeat (split; [assumption|]).
  exists c, itr, ite, tr0, te0. repeat (split; [first [reflexivity | eassumption]|]).
  destruct (Z.gtb_spec (Z.of_nat (List.length tr0)) a) as [Gt|Gt]; simpl in H.
  - destruct (seed_ok (Some seed)) eqn:S1; simpl in H; [|discriminate].
    destruct (iloc tr0 _) as [tr1|e] eqn:E1; simpl in H; [|discriminate].
    destruct (Z.gtb_spec (Z.of_nat (List.length te0)) b) as [Gt'|Gt']; simpl in H.
    + destruct (seed_ok (Some (seed + 1)%Z)) eqn:S2; simpl in H; [|discriminate].
      destruct (iloc te0 _) as [te1|e] eqn:E2; simpl in H; [|discriminate].
      injection H as <- <-.
      split; left; repeat split; (lia || assumption || reflexivity).
    + injection H as <- <-.
      split; [left | right]; repeat split; (lia || assumption || reflexivity).
  - destruct (Z.gtb_spec (Z.of_nat (List.length te0)) b) as [Gt'|Gt']; simpl in H.
    + destruct (seed_ok (Some (seed + 1)%Z)) eqn:S2; simpl in H; [|discriminate].
      destruct (iloc te0 _) as [te1|e] eqn:E2; simpl in H; [|discriminate].
      injection H as <- <-.
      split; [right | left]; repeat split; (lia || assumption || reflexivity).
    + injection H as <- <-. split; right; split; (lia || reflexivity).
Qed.

(** C9: a returned subset never has more rows than requested, and the
    trimming is one-sided: a subset the splitter returns with more rows
    is sampled down to the requested size, one with at most that many
    rows is returned as it is. *)
Theorem C9_never_oversized :
  forall g (X : list R) (y : list F) a b seed bins train test,
    (forall g rs len k, k <= len -> List.length (rs_choice g rs len k) = k) ->
    outcome (sfs g X y a b seed bins) = Ok (train, test) ->
    (Z.of_nat (List.length train) <= a)%Z /\
    (Z.of_nat (List.length test) <= b)%Z /\
    exists c itr ite tr0 te0,
      qcut y bins = Ok c /\
      sss_split g (Some seed) (props_of X a) (props_of X b)
                (List.length X) (cat_codes c) = Ok (itr, ite) /\
      iloc (combine X y) itr = Ok tr0 /\
      iloc (combine X y) ite = Ok te0 /\
      ((Z.of_nat (List.length tr0) > a)%Z -> Z.of_nat (List.length train) = a) /\
      ((Z.of_nat (List.length tr0) <= a)%Z -> train = tr0) /\
      ((Z.of_nat (List.length te0) > b)%Z -> Z.of_nat (List.length test) = b) /\
      ((Z.of_nat (List.length te0) <= b)%Z -> test = te0).
Proof.
  intros g X y a b seed bins train test Hch H.
  apply sfs_ok_inv in H.
  destruct H as (Ha & Hb & Hs & c & itr & ite & tr0 & te0 & Eq & Es & Etr & Ete & Ttr & Tte).
  assert (Ltr : ((Z.of_nat (List.length tr0) > a)%Z -> Z.of_nat (List.length train) = a)
                /\ ((Z.of_nat (List.length tr0) <= a)%Z -> train = tr0)).
  { destruct Ttr as [[Gt [Sd E]]|[Le ->]]; split; intros; try lia; try reflexivity.
    apply iloc_length in E. rewrite E, Hch by lia. lia. }
  assert (Lte : ((Z.of_nat (List.length te0) > b)%Z -> Z.of_nat (List.length test) = b)
                /\ ((Z.of_nat (List.length te0) <= b)%Z -> test = te0)).
  { destruct Tte as [[Gt [Sd E]]|[Le ->]]; split; intros; try lia; try reflexivity.
    apply iloc_length in E. rewrite E, Hch by lia. lia. }
  destruct Ltr as [L1 L2], Lte as [L3 L4].
  split; [|split].
  - destruct (Z_gt_le_dec (Z.of_nat (List.length tr0)) a) as [C|C];
      [rewrite (L1 C); lia | rewrite (L2 C); exact C].
  - destruct (Z_gt_le_dec (Z.of_nat (List.length te0)) b) as [C|C];
      [rewrite (L3 C); lia | rewrite (L4 C); exact C].
  - exists c, itr, ite, tr0, te0. repeat (split; [assumption|]). assumption.
Qed.

Lemma trimmed_positions g seed size (df : list (R * F)) idx raw final :
  iloc df idx = Ok raw ->
  trimmed rs_choice g seed size raw final ->
  exists idx', iloc df idx' = Ok final /\ forall p, In p idx' -> In p idx.
Proof.
  intros H [[_ [_ E]]|[_ ->]].
  - destruct (@iloc_compose _ df idx raw _ final H E) as (idx' & E1 & E2).
    exists idx'. split; [exact E2|]. intros p Hp. eapply iloc_In; eauto.
  - exists idx. split; [exact H | auto].
Qed.

(** C4: the returned subsets are rows of the input table taken at two
    lists of row positions that have no position in common. *)
Theorem C4_disjoint_positions :
  forall g (X : list R) (y : list F) a b seed bins train test,
    (forall g rs tp sp n codes itr ite,
       sss_split g rs tp sp n codes = Ok (itr, ite) ->
       forall p, In p itr -> In p ite -> False) ->
    outcome (sfs g X y a b seed bins) = Ok (train, test) ->
    exists ptr pte,
      iloc (combine X y) ptr = Ok train /\
      iloc (combine X y) pte = Ok test /\
      forall p, In p ptr -> In p pte -> False.
Proof.
  intros g X y a b seed bins train test Hdis H.
  apply sfs_ok_inv in H.
  destruct H as (_ & _ & _ & c & itr & ite & tr0 & te0 & _ & Es & Etr & Ete & Ttr & Tte).
  destruct (@trimmed_positions g seed a _ _ _ _ Etr Ttr) as (ptr & E1 & S1).
  destruct (@trimmed_positions g (seed + 1)%Z b _ _ _ _ Ete Tte) as (pte & E2 & S2).
  exists ptr, pte. split; [exact E1|]. split; [exact E2|].
  intros p H1 H2. exact (Hdis _ _ _ _ _ _ _ _ Es p (S1 p H1) (S2 p H2)).
Qed.

(** Trimming with a seed that numpy does not take fails: when the test
    subset has to be cut and [random_state] is [2**32 - 1], the seed
    [random_state + 1] of line 89 is rejected. *)
Lemma sample_rejects_seed g (df : list (R * F)) k rs :
  seed_ok rs = false ->
  exists msg,
    sample rs_choice g df k rs = ([EvSample], Raise (ValueError msg)).
Proof. intros H. unfold sample, call. rewrite H. eauto. Qed.

Lemma bind_ext {A B} (m : M A) (f f' : A -> M B) :
  (forall a, f a = f' a) -> bind m f = bind m f'.
Proof. intros H. destruct m as [log [a|e]]; simpl; [rewrite H|]; reflexivity. Qed.

(** C5: with a fixed seed, bin count and input, the subsets and the two
    files do not depend on anything else, in particular not on the state
    of the process-wide generator: whatever that state is, the run gives
    the same rows in the same order and the same file contents.  Every
    library call of the splitter is given a seed, and a seeded call does
    not consult the process-wide generator. *)
Theorem C5_deterministic :
  forall (g g' : G) (X : list R) (y : list F) a b seed bins,
    (forall g g' s tp sp n codes,
       sss_split g (Some s) tp sp n codes = sss_split g' (Some s) tp sp n codes) ->
    (forall g g' s len k,
       rs_choice g (Some s) len k = rs_choice g' (Some s) len k) ->
    sfs g X y a b seed bins = sfs g' X y a b seed bins /\
    main qcut sss_split rs_choice to_csv g (mkArgs a b seed bins) X y
      = main qcut sss_split rs_choice to_csv g' (mkArgs a b seed bins) X y.
Proof.
  intros g g' X y a b seed bins Hs Hc.
  assert (E : sfs g X y a b seed bins = sfs g' X y a b seed bins).
  { unfold stratified_fixed_sizes, sample.
    do 3 (apply bind_ext; intros ?).
    rewrite (Hs g g'). apply bind_ext; intros ?.
    do 2 (apply bind_ext; intros ?).
    rewrite !(Hc g g'). reflexivity. }
  split; [exact E|]. unfold main. simpl. now rewrite E.
Qed.

Lemma passed_check_no_assert g (X : list R) (y : list F) a b seed bins :
  (forall y q, is_assertion_error (qcut y q) = false) ->
  (forall g rs tp sp n codes,
     is_assertion_error (sss_split g rs tp sp n codes) = false) ->
  (0 < a)%Z -> (0 < b)%Z -> (a + b <= Z.of_nat (List.length X))%Z ->
  is_assertion_error (outcome (sfs g X y a b seed bins)) = false /\
  hd_error (work (sfs g X y a b seed bins)) = Some EvQcut.
Proof.
  intros Hq Hs Ha Hb Hn.
  unfold stratified_fixed_sizes, make_stratify_bins, sample, outcome, work,
    bind, assert_, call, lift, ret.
  destruct (Z.ltb_spec 0 a) as [_|?]; [|lia]. destruct (Z.ltb_spec 0 b) as [_|?]; [|lia].
  destruct (Z.leb_spec (a + b) (Z.of_nat (List.length X))) as [_|?]; [|lia]. simpl.
  specialize (Hq y bins). destruct (qcut y bins) as [c|e]; simpl; [|auto].
  match goal with |- context [sss_split ?g ?rs ?tp ?sp ?n ?cs] =>
    specialize (Hs g rs tp sp n cs); destruct (sss_split g rs tp sp n cs) as [[itr ite]|e]
  end; simpl; [|auto].
  pose proof (iloc_no_assert (combine X y) itr) as I1.
  destruct (iloc (combine X y) itr) as [tr0|e]; simpl; [|auto].
  pose proof (iloc_no_assert (combine X y) ite) as I2.
  destruct (iloc (combine X y) ite) as [te0|e]; simpl; [|auto].
  destruct (Z.of_nat (List.length tr0) >? a)%Z; simpl.
  - destruct (seed_ok (Some seed)); simpl; [|auto].
    match goal with |- context [iloc tr0 ?p] =>
      pose proof (iloc_no_assert tr0 p) as I3; destruct (iloc tr0 p) as [tr1|e]
    end; simpl; [|auto].
    destruct (Z.of_nat (List.length te0) >? b)%Z; simpl; [|auto].
    destruct (seed_ok (Some (seed + 1)%Z)); simpl; [|auto].
    match goal with |- context [iloc te0 ?p] =>
      pose proof (iloc_no_assert te0 p) as I4; destruct (iloc te0 p) as [te1|e]
    end; simpl; auto.
  - destruct (Z.of_nat (List.length te0) >? b)%Z; simpl; [|auto].
    destruct (seed_ok (Some (seed + 1)%Z)); simpl; [|auto].
    match goal with |- context [iloc te0 ?p] =>
      pose proof (iloc_no_assert te0 p) as I4; destruct (iloc te0 p) as [te1|e]
    end; simpl; auto.
Qed.

Lemma failed_check g (X : list R) (y : list F) a b seed bins :
  (a <= 0 \/ b <= 0 \/ a + b > Z.of_nat (List.length X))%Z ->
  is_assertion_error (outcome (sfs g X y a b seed bins)) = true /\
  work (sfs g X y a b seed bins) = [].
Proof.
  intros H.
  unfold stratified_fixed_sizes, outcome, work, bind, assert_, ret.
  destruct (Z.ltb_spec 0 a); simpl; [|auto].
  destruct (Z.ltb_spec 0 b); simpl; [|auto].
  destruct (Z.leb_spec (a + b) (Z.of_nat (List.length X))); simpl; [lia | auto].
Qed.

(** C2 as amended: the size-constraint violation is reported exactly
    when [train_size <= 0], [test_size <= 0] or [train_size + test_size]
    exceeds the number of records, and then no binning or sampling has
    been done; otherwise the first work done is the binning.  A request
    for exactly the number of records passes the check, one more fails
    it; [main] exits before the splitter when the sum is too large. *)
Theorem C2_size_check :
  forall g (X : list R) (y : list F) a b seed bins,
    (forall y q, is_assertion_error (qcut y q) = false) ->
    (forall g rs tp sp n codes,
       is_assertion_error (sss_split g rs tp sp n codes) = false) ->
    let m := sfs g X y a b seed bins in
    let n := Z.of_nat (List.length X) in
    (is_assertion_error (outcome m) = true
       <-> (a <= 0 \/ b <= 0 \/ a + b > n)%Z) /\
    (is_assertion_error (outcome m) = true -> work m = []) /\
    (is_assertion_error (outcome m) = false -> hd_error (work m) = Some EvQcut) /\
    ((0 < a)%Z -> (0 < b)%Z -> (a + b = n)%Z ->
       is_assertion_error (outcome m) = false) /\
    ((a + b = n + 1)%Z -> is_assertion_error (outcome m) = true) /\
    ((a + b > n)%Z ->
       exists msg info,
         main qcut sss_split rs_choice to_csv g (mkArgs a b seed bins) X y
           = ([], Raise (SystemExit msg info))).
Proof.
  intros g X y a b seed bins Hq Hs m n.
  assert (D : (a <= 0 \/ b <= 0 \/ a + b > n)%Z \/ (0 < a /\ 0 < b /\ a + b <= n)%Z) by lia.
  assert (Bad : (a <= 0 \/ b <= 0 \/ a + b > n)%Z ->
                is_assertion_error (outcome m) = true /\ work m = [])
    by (apply failed_check).
  assert (Good : (0 < a /\ 0 < b /\ a + b <= n)%Z ->
                 is_assertion_error (outcome m) = false /\
                 hd_error (work m) = Some EvQcut).
  { intros (Ha & Hb & Hn). now apply passed_check_no_assert. }
  repeat split.
  - intros E. destruct D as [D|D]; [exact D|]. apply Good in D. destruct D; congruence.
  - intros H. now apply Bad.
  - intros E. destruct D as [D|D]; [now apply Bad | apply Good in D; destruct D; congruence].
  - intros E. destruct D as [D|D]; [apply Bad in D; destruct D; congruence | now apply Good].
  - intros Ha Hb Hn. apply Good. lia.
  - intros Hn. apply Bad. lia.
  - intros Hn. unfold main. simpl.
    destruct (Z.gtb_spec (a + b) (Z.of_nat (List.length X))); [|unfold n in Hn; lia].
    eexists _, _. reflexivity.
Qed.

(** With a splitter that sizes its subsets as sklearn does, the sizes of
    the returned subsets follow from the request alone. *)
Lemma sfs_sizes g (X : list R) (y : list F) a b seed bins train test :
  (forall g rs tp sp n codes itr ite,
     sss_split g rs tp sp n codes = Ok (itr, ite) ->
     exists ntr nte,
       Sklearn.validate_shuffle_split (Z.of_nat n) sp tp = Ok (ntr, nte) /\
       List.length itr = Z.to_nat ntr /\ List.length ite = Z.to_nat nte) ->
  (forall g rs len k, k <= len -> List.length (rs_choice g rs len k) = k) ->
  outcome (sfs g X y a b seed bins) = Ok (train, test) ->
  exists ntr nte,
    Sklearn.validate_shuffle_split (Z.of_nat (List.length X))
      (props_of X b) (props_of X a) = Ok (ntr, nte) /\
    List.length train = Nat.min (Z.to_nat ntr) (Z.to_nat a) /\
    List.length test = Nat.min (Z.to_nat nte) (Z.to_nat b).
Proof.
  intros Hsz Hch H. apply sfs_ok_inv in H.
  destruct H as (Ha & Hb & Hs & c & itr & ite & tr0 & te0 & Eq & Es & Etr & Ete & Ttr & Tte).
  destruct (Hsz _ _ _ _ _ _ _ _ Es) as (ntr & nte & Ev & L1 & L2).
  exists ntr, nte. split; [exact Ev|].
  apply iloc_length in Etr. apply iloc_length in Ete.
  split.
  - destruct Ttr as [[Gt [Sd E]]|[Le ->]].
    + apply iloc_length in E. rewrite E, Hch by lia. lia.
    + lia.
  - destruct Tte as [[Gt [Sd E]]|[Le ->]].
    + apply iloc_length in E. rewrite E, Hch by lia. lia.
    + lia.
Qed.

(** C1 at a table of 49 records with [train_size = 16] and
    [test_size = 10]: whatever the seed, the bins and the shuffle, a call
    that returns gives 15 training rows, one fewer than requested, and 10
    test rows.  The splitter takes [floor((16/49) * 49)] training rows, and
    in binary64 that product is just below 16. *)
Theorem C1_undersized_train :
  forall g (X : list R) (y : list F) seed bins train test,
    (forall g rs tp sp n codes itr ite,
       sss_split g rs tp sp n codes = Ok (itr, ite) ->
       exists ntr nte,
         Sklearn.validate_shuffle_split (Z.of_nat n) sp tp = Ok (ntr, nte) /\
         List.length itr = Z.to_nat ntr /\ List.length ite = Z.to_nat nte) ->
    (forall g rs len k, k <= len -> List.length (rs_choice g rs len k) = k) ->
    Z.of_nat (List.length X) = 49%Z ->
    outcome (sfs g X y 16 10 seed bins) = Ok (train, test) ->
    List.length train = 15 /\ List.length test = 10.
Proof.
  intros g X y seed bins train test Hsz Hch HX H.
  destruct (@sfs_sizes g X y _ _ seed bins train test Hsz Hch H)
    as (ntr & nte & Ev & L1 & L2).
  unfold props_of in Ev. rewrite HX in Ev. vm_compute in Ev.
  injection Ev as <- <-. rewrite L1, L2. split; reflexivity.
Qed.

(** On the 20640 records of the California housing table, a request for
    329 training and 300 test rows returns 328 training rows, whatever
    the seed and the bins. *)
Lemma california_329_returns_328 g (X : list R) (y : list F) seed bins train test :
  (forall g rs tp sp n codes itr ite,
     sss_split g rs tp sp n codes = Ok (itr, ite) ->
     exists ntr nte,
       Sklearn.validate_shuffle_split (Z.of_nat n) sp tp = Ok (ntr, nte) /\
       List.length itr = Z.to_nat ntr /\ List.length ite = Z.to_nat nte) ->
  (forall g rs len k, k <= len -> List.length (rs_choice g rs len k) = k) ->
  Z.of_nat (List.length X) = 20640%Z ->
  outcome (sfs g X y 329 300 seed bins) = Ok (train, test) ->
  List.length train = 328 /\ List.length test = 300.
Proof.
  intros Hsz Hch HX H.
  destruct (@sfs_sizes g X y _ _ seed bins train test Hsz Hch H)
    as (ntr & nte & Ev & L1 & L2).
  unfold props_of in Ev. rewrite HX in Ev. vm_compute in Ev.
  injection Ev as <- <-. rewrite L1, L2. split; reflexivity.
Qed.

(** On the same table, a request for 20559 training and 81 test rows,
    20640 in all, is rejected by the splitter's size computation. *)
Lemma california_boundary_rejected g (X : list R) (y : list F) seed bins :
  (forall g rs tp sp n codes itr ite,
     sss_split g rs tp sp n codes = Ok (itr, ite) ->
     exists ntr nte,
       Sklearn.validate_shuffle_split (Z.of_nat n) sp tp = Ok (ntr, nte) /\
       List.length itr = Z.to_nat ntr /\ List.length ite = Z.to_nat nte) ->
  (forall g rs len k, k <= len -> List.length (rs_choice g rs len k) = k) ->
  Z.of_nat (List.length X) = 20640%Z ->
  is_ok (outcome (sfs g X y 20559 81 seed bins)) = false.
Proof.
  intros Hsz Hch HX.
  destruct (outcome (sfs g X y 20559 81 seed bins)) as [[train test]|e] eqn:H;
    [|reflexivity].
  destruct (@sfs_sizes g X y _ _ seed bins train test Hsz Hch H)
    as (ntr & nte & Ev & _).
  unfold props_of in Ev. rewrite HX in Ev. vm_compute in Ev. discriminate Ev.
Qed.
End SplitterFacts.

(** *** The reference routines meet what is assumed of the library *)

Lemma ref_split_inv g rs tp sp n codes itr ite :
  Reference.ref_split g rs tp sp n codes = Ok (itr, ite) ->
  exists ntr nte,
    Sklearn.validate_shuffle_split (Z.of_nat n) sp tp = Ok (ntr, nte) /\
    itr = seq 0 (Z.to_nat ntr) /\ ite = seq (Z.to_nat ntr) (Z.to_nat nte).
Proof.
  unfold Reference.ref_split. intros H.
  destruct (negb (List.length codes =? n)); [discriminate|].
  destruct (Sklearn.validate_shuffle_split (Z.of_nat n) sp tp) as [[ntr nte]|e];
    [|discriminate].
  destruct (existsb _ _); [discriminate|].
  destruct (ntr <? _)%Z; [discriminate|].
  destruct (nte <? _)%Z; [discriminate|].
  injection H as <- <-. exists ntr, nte. repeat split.
Qed.

Lemma ref_split_sizes g rs tp sp n codes itr ite :
  Reference.ref_split g rs tp sp n codes = Ok (itr, ite) ->
  exists ntr nte,
    Sklearn.validate_shuffle_split (Z.of_nat n) sp tp = Ok (ntr, nte) /\
    List.length itr = Z.to_nat ntr /\ List.length ite = Z.to_nat nte.
Proof.
  intros H. apply ref_split_inv in H. destruct H as (ntr & nte & E & -> & ->).
  exists ntr, nte. rewrite !length_seq. repeat split. exact E.
Qed.

Lemma ref_split_disjoint g rs tp sp n codes itr ite :
  Reference.ref_split g rs tp sp n codes = Ok (itr, ite) ->
  forall p, In p itr -> In p ite -> False.
Proof.
  intros H p H1 H2. apply ref_split_inv in H. destruct H as (ntr & nte & _ & -> & ->).
  apply in_seq in H1. apply in_seq in H2. lia.
Qed.

Lemma ref_split_seeded (g g' : nat) s tp sp n codes :
  Reference.ref_split g (Some s) tp sp n codes
    = Reference.ref_split g' (Some s) tp sp n codes.
Proof. reflexivity. Qed.

Lemma ref_choice_seeded (g g' : nat) (s : Z) len k :
  Reference.ref_choice g (Some s) len k = Reference.ref_choice g' (Some s) len k.
Proof. reflexivity. Qed.

Lemma ref_choice_length (g : nat) (rs : option Z) len k :
  k <= len -> List.length (Reference.ref_choice g rs len k) = k.
Proof.
  intros _. unfold Reference.ref_choice.
  destruct rs; [|destruct (Nat.even g)]; apply length_seq.
Qed.

Lemma validate_no_assert n sp tp :
  is_assertion_error (Sklearn.validate_shuffle_split n sp tp) = false.
Proof.
  unfold Sklearn.validate_shuffle_split.
  repeat match goal with
         | |- context [if ?c then _ else _] => destruct c
         | |- context [match ?o with Some _ => _ | None => _ end] => destruct o
         end; reflexivity.
Qed.

Lemma ref_split_no_assert g rs tp sp n codes :
  is_assertion_error (Reference.ref_split g rs tp sp n codes) = false.
Proof.
  unfold Reference.ref_split.
  destruct (negb (List.length codes =? n)); [reflexivity|].
  pose proof (validate_no_assert (Z.of_nat n) sp tp) as H.
  destruct (Sklearn.validate_shuffle_split (Z.of_nat n) sp tp) as [[ntr nte]|e];
    [|exact H].
  repeat match goal with
         | |- context [if ?c then _ else _] => destruct c
         end; reflexivity.
Qed.

Lemma ref_qcut_no_assert y q : is_assertion_error (Reference.ref_qcut y q) = false.
Proof.
  unfold Reference.ref_qcut, Pandas.qcut.
  destruct (q <? 1)%Z; [reflexivity|].
  destruct (Pandas.quantile_edges _ _ _ _); [reflexivity|].
  destruct (q =? 1)%Z; reflexivity.
Qed.

Lemma C9_witness :
  let train := fst (Reference.run_subsets 25 10 7 42 2) in
  let test := snd (Reference.run_subsets 25 10 7 42 2) in
  (Z.of_nat (List.length train) <= 10)%Z /\
  (Z.of_nat (List.length test) <= 7)%Z /\
  exists c itr ite tr0 te0,
    Reference.ref_qcut (Reference.targets 25) 2 = Ok c /\
    Reference.ref_split 0 (Some 42%Z) (props_of (Reference.table 25) 10)
      (props_of (Reference.table 25) 7) (List.length (Reference.table 25))
      (cat_codes c) = Ok (itr, ite) /\
    iloc (combine (Reference.table 25) (Reference.targets 25)) itr = Ok tr0 /\
    iloc (combine (Reference.table 25) (Reference.targets 25)) ite = Ok te0 /\
    ((Z.of_nat (List.length tr0) > 10)%Z -> Z.of_nat (List.length train) = 10%Z) /\
    ((Z.of_nat (List.length tr0) <= 10)%Z -> train = tr0) /\
    ((Z.of_nat (List.length te0) > 7)%Z -> Z.of_nat (List.length test) = 7%Z) /\
    ((Z.of_nat (List.length te0) <= 7)%Z -> test = te0).
Proof.
  apply (@C9_never_oversized nat Z nat Reference.ref_qcut Reference.ref_split
           Reference.ref_choice 0 (Reference.table 25) (Reference.targets 25)
           10%Z 7%Z 42%Z 2%Z _ _ ref_choice_length).
  reflexivity.
Defined.

Lemma C4_witness :
  exists ptr pte,
    iloc (combine (Reference.table 25) (Reference.targets 25)) ptr
      = Ok (fst (Reference.run_subsets 25 10 7 42 2)) /\
    iloc (combine (Reference.table 25) (Reference.targets 25)) pte
      = Ok (snd (Reference.run_subsets 25 10 7 42 2)) /\
    forall p, In p ptr -> In p pte -> False.
Proof.
  apply (@C4_disjoint_positions nat Z nat Reference.ref_qcut Reference.ref_split
           Reference.ref_choice 0 (Reference.table 25) (Reference.targets 25)
           10%Z 7%Z 42%Z 2%Z _ _ ref_split_disjoint).
  reflexivity.
Defined.

Lemma C5_witness :
  stratified_fixed_sizes Reference.ref_qcut Reference.ref_split Reference.ref_choice
    0 (Reference.table 25) (Reference.targets 25) 10 7 42 2
  = stratified_fixed_sizes Reference.ref_qcut Reference.ref_split Reference.ref_choice
    1 (Reference.table 25) (Reference.targets 25) 10 7 42 2 /\
  main Reference.ref_qcut Reference.ref_split Reference.ref_choice
       Reference.ref_to_csv 0 (mkArgs 10 7 42 2)
       (Reference.table 25) (Reference.targets 25)
  = main Reference.ref_qcut Reference.ref_split Reference.ref_choice
       Reference.ref_to_csv 1 (mkArgs 10 7 42 2)
       (Reference.table 25) (Reference.targets 25).
Proof.
  apply (@C5_deterministic nat Z nat Reference.ref_qcut Reference.ref_split
           Reference.ref_choice Reference.ref_to_csv 0 1
           (Reference.table 25) (Reference.targets 25) 10%Z 7%Z 42%Z 2%Z
           ref_split_seeded ref_choice_seeded).
Defined.

Lemma C2_witness :
  let m := Reference.run 25 10 7 42 2 in
  let n := Z.of_nat (List.length (Reference.table 25)) in
  (is_assertion_error (outcome m) = true
     <-> (10 <= 0 \/ 7 <= 0 \/ 10 + 7 > n)%Z) /\
  (is_assertion_error (outcome m) = true -> work m = []) /\
  (is_assertion_error (outcome m) = false -> hd_error (work m) = Some EvQcut) /\
  ((0 < 10)%Z -> (0 < 7)%Z -> (10 + 7 = n)%Z ->
     is_assertion_error (outcome m) = false) /\
  ((10 + 7 = n + 1)%Z -> is_assertion_error (outcome m) = true) /\
  ((10 + 7 > n)%Z ->
     exists msg info,
       main Reference.ref_qcut Reference.ref_split Reference.ref_choice
            Reference.ref_to_csv 0 (mkArgs 10 7 42 2)
            (Reference.table 25) (Reference.targets 25)
         = ([], Raise (SystemExit msg info))).
Proof.
  apply (@C2_size_check nat Z nat Reference.ref_qcut Reference.ref_split
           Reference.ref_choice Reference.ref_to_csv 0
           (Reference.table 25) (Reference.targets 25) 10%Z 7%Z 42%Z 2%Z
           ref_qcut_no_assert ref_split_no_assert).
Defined.

(** A request for exactly the 12 available records (targets 0 to 11, 8
    training and 4 test rows, 10 bins) passes the size check, and the
    sizes the split computes are exactly 8 and 4.  But of the ten bins
    eight hold a single record, and the stratified split refuses a class
    with one member: the call fails with [ValueError], after the binning,
    although no size constraint is violated. *)
Lemma C2_single_member_bin_rejected :
  let m := Reference.run 12 8 4 42 10 in
  let n := Z.of_nat (List.length (Reference.table 12)) in
  (0 < 8)%Z /\ (0 < 4)%Z /\ (8 + 4 = n)%Z /\
  Sklearn.validate_shuffle_split n
    (props_of (Reference.table 12) 4) (props_of (Reference.table 12) 8)
    = Ok (8, 4)%Z /\
  make_stratify_bins Reference.ref_qcut (Reference.targets 12) 10
    = ([EvQcut], Ok [0; 0; 1; 2; 3; 4; 5; 6; 7; 8; 9; 9]%Z) /\
  m = ([EvQcut; EvSplit],
       Raise (ValueError "The least populated class in y has only 1 member")) /\
  ~ (is_ok (outcome m) = false <-> (8 <= 0 \/ 4 <= 0 \/ 8 + 4 > n)%Z).
Proof.
  assert (E : Reference.run 12 8 4 42 10
              = ([EvQcut; EvSplit],
                 Raise (ValueError "The least populated class in y has only 1 member")))
    by (vm_compute; reflexivity).
  assert (L : Z.of_nat (List.length (Reference.table 12)) = 12%Z) by reflexivity.
  cbv zeta. rewrite E, L.
  split; [lia|]. split; [lia|]. split; [lia|].
  split; [vm_compute; reflexivity|]. split; [vm_compute; reflexivity|].
  split; [reflexivity|].
  intros [H _]. specialize (H eq_refl). lia.
Qed.

(** The proportion arithmetic that makes the training subset one row
    short also turns away some requests for exactly the available
    records: with 25 records, 18 training and 7 test rows, the split
    computes [ceil((7/25) * 25) = 8] test rows and raises. *)
Lemma rounding_rejects_boundary_request :
  let m := Reference.run 25 18 7 42 2 in
  (0 < 18)%Z /\ (0 < 7)%Z /\
  (18 + 7 = Z.of_nat (List.length (Reference.table 25)))%Z /\
  is_ok (outcome m) = false /\
  ~ (is_ok (outcome m) = false
       <-> (18 <= 0 \/ 7 <= 0
            \/ 18 + 7 > Z.of_nat (List.length (Reference.table 25)))%Z).
Proof.
  assert (E : is_ok (outcome (Reference.run 25 18 7 42 2)) = false)
    by (vm_compute; reflexivity).
  assert (L : Z.of_nat (List.length (Reference.table 25)) = 25%Z) by reflexivity.
  cbv zeta. rewrite L. repeat split; try lia; try exact E.
  intros [H _]. specialize (H E). lia.
Qed.

Lemma C1_witness :
  List.length (fst (Reference.run_subsets 49 16 10 42 2)) = 15 /\
  List.length (snd (Reference.run_subsets 49 16 10 42 2)) = 10.
Proof.
  apply (@C1_undersized_train nat Z nat Reference.ref_qcut Reference.ref_split
           Reference.ref_choice 0 (Reference.table 49) (Reference.targets 49)
           42%Z 2%Z _ _ ref_split_sizes ref_choice_length);
    reflexivity.
Defined.
End PrepareDataSpec.

(** ** The stratification bins *)

Module QcutSpec.
Import Effects PrepareData Pandas.

Section QcutFacts.
Variable F : Type.
Variable leb : F -> F -> bool.
Variable interior_edge : list F -> nat -> nat -> F.

(** [<=] orders the targets that are not missing. *)
Hypothesis leb_total :
  forall a b, leb a a = true -> leb b b = true ->
    leb a b = true \/ leb b a = true.
Hypothesis leb_trans :
  forall a b c, leb a b = true -> leb b c = true -> leb a c = true.

Local Abbreviation le := (TrainTree.le leb).
















(** What [qcut] rejects: a bin count below 1, and one bin over a series
    without a value. *)
Lemma qcut_rejects (y : list F) (n_bins : Z) :
  ((n_bins <= 0)%Z \/
   (n_bins = 1%Z /\ forall v, In v y -> leb v v = false)) ->
  exists msg, qcut leb interior_edge y n_bins = Raise (ValueError msg).
Proof.
  unfold qcut. intros [H|[-> H]].
  - destruct (Z.ltb_spec n_bins 1); [eauto | lia].
  - simpl. unfold quantile_edges.
    rewrite (@StatsFacts.dropna_none F leb y H). simpl. eauto.
Qed.

End QcutFacts.


End QcutSpec.

(** * Further properties of the two scripts *)

(** ** The exporter: failures, copied fields and what it reads *)

Module ExporterExtra.
Import Py TrainTree.

Section Facts.
Variable F : Type.

Lemma export_loop_none (t : Tree F) names ids : forall acc,
  export_loop t names ids acc = None <->
  exists i, In i ids /\ node_dict t names i = None.
Proof.
  induction ids as [|j rest IH]; intros acc; simpl.
  - split; [discriminate | intros (i & [] & _)].
  - unfold obind. destruct (node_dict t names j) as [d|] eqn:Ed.
    + rewrite IH. split.
      * intros (i & Hi & Hn). exists i. split; [now right | exact Hn].
      * intros (i & [<-|Hi] & Hn); [congruence | eauto].
    + split; [intros _; exists j; split; [now left | exact Ed] | reflexivity].
Qed.

(** The export is all or nothing: it raises exactly when the record of
    some node id below [node_count] cannot be built. *)
Theorem export_fails_iff_a_node_fails :
  forall (t : Tree F) (names : list string),
    export_tree_json t names = None <->
    exists i, i < node_count t /\ node_dict t names i = None.
Proof.
  intros t names. unfold export_tree_json, obind.
  destruct (export_loop t names (seq 0 (node_count t)) []) as [nodes|] eqn:E.
  - split; [discriminate|]. intros (i & Hi & Hn). exfalso.
    assert (H : export_loop t names (seq 0 (node_count t)) [] = None).
    { apply export_loop_none. exists i. split; [apply in_seq; lia | exact Hn]. }
    congruence.
  - split; [|reflexivity]. intros _. apply export_loop_none in E.
    destruct E as (i & Hi & Hn). apply in_seq in Hi. exists i. split; [lia | exact Hn].
Qed.

Lemma node_dict_fields (t : Tree F) names i d :
  node_dict t names i = Some d ->
  exists ns imp v2 v1 v,
    nth_error (n_node_samples t) i = Some ns /\
    nth_error (impurity t) i = Some imp /\
    nth_error (value t) i = Some v2 /\ nth_error v2 0 = Some v1 /\
    nth_error v1 0 = Some v /\
    dict_get d "id" = Some (JInt (Z.of_nat i)) /\
    dict_get d "nSamples" = Some (JInt ns) /\
    dict_get d "impurity" = Some (JFloat imp) /\
    dict_get d "value" = Some (JFloat v) /\
    (dict_get d "isLeaf" = Some (JBool false) ->
     exists fi th,
       nth_error (feature t) i = Some fi /\
       nth_error (threshold t) i = Some th /\
       dict_get d "featureIndex" = Some (JInt fi) /\
       dict_get d "threshold" = Some (JFloat th)).
Proof.
  unfold node_dict, obind. intros H.
  destruct (nth_error (children_left t) i) as [l|]; [|discriminate].
  destruct (nth_error (children_right t) i) as [r|]; [|discriminate].
  destruct (nth_error (n_node_samples t) i) as [ns|]; [|discriminate].
  destruct (nth_error (impurity t) i) as [imp|]; [|discriminate].
  destruct (nth_error (value t) i) as [v2|]; [|discriminate].
  destruct (nth_error v2 0) as [v1|] eqn:E1; [|discriminate].
  destruct (nth_error v1 0) as [v|] eqn:E0; [|discriminate].
  exists ns, imp, v2, v1, v.
  do 3 (split; [reflexivity|]). split; [exact E1|]. split; [exact E0|].
  destruct (l =? r)%Z; simpl in H.
  - injection H as <-. repeat (split; [reflexivity|]). discriminate.
  - destruct (nth_error (feature t) i) as [fi|]; [|discriminate].
    destruct (py_index names fi) as [name|]; [|discriminate].
    destruct (nth_error (threshold t) i) as [th|]; [|discriminate].
    injection H as <-. repeat (split; [reflexivity|]).
    intros _. exists fi, th. repeat split.
Qed.

(** The record emitted for node [i] carries the entries of the source
    arrays at [i]: its sample count, impurity and value [value[i][0][0]],
    and for an interior node its feature index and threshold. *)
Theorem export_copies_the_arrays :
  forall (t : Tree F) (names : list string) (out : dict F)
         (nodes : list (json F)) (i : nat) (d : dict F),
    export_tree_json t names = Some out ->
    dict_get out "nodes" = Some (JList nodes) ->
    nth_error nodes i = Some (JDict d) ->
    exists ns imp v2 v1 v,
      nth_error (n_node_samples t) i = Some ns /\
      nth_error (impurity t) i = Some imp /\
      nth_error (value t) i = Some v2 /\ nth_error v2 0 = Some v1 /\
      nth_error v1 0 = Some v /\
      dict_get d "id" = Some (JInt (Z.of_nat i)) /\
      dict_get d "nSamples" = Some (JInt ns) /\
      dict_get d "impurity" = Some (JFloat imp) /\
      dict_get d "value" = Some (JFloat v) /\
      (dict_get d "isLeaf" = Some (JBool false) ->
       exists fi th,
         nth_error (feature t) i = Some fi /\
         nth_error (threshold t) i = Some th /\
         dict_get d "featureIndex" = Some (JInt fi) /\
         dict_get d "threshold" = Some (JFloat th)).
Proof.
  intros t names out nodes i d H Hn Hi.
  destruct (@TrainTreeSpec.export_nth F t names out nodes i _ H Hn Hi)
    as (d' & Hd' & Hd & _).
  injection Hd' as <-. now apply node_dict_fields with (names := names).
Qed.

Lemma node_dict_names_ext (t : Tree F) names names' i :
  (forall l r fi,
     nth_error (children_left t) i = Some l ->
     nth_error (children_right t) i = Some r -> l <> r ->
     nth_error (feature t) i = Some fi ->
     py_index names fi = py_index names' fi) ->
  node_dict t names i = node_dict t names' i.
Proof.
  intros H. unfold node_dict, obind.
  destruct (nth_error (children_left t) i) as [l|]; [|reflexivity].
  destruct (nth_error (children_right t) i) as [r|]; [|reflexivity].
  destruct (nth_error (n_node_samples t) i) as [ns|]; [|reflexivity].
  destruct (nth_error (impurity t) i) as [imp|]; [|reflexivity].
  destruct (nth_error (value t) i) as [v2|]; [|reflexivity].
  destruct (nth_error v2 0) as [v1|]; [|reflexivity].
  destruct (nth_error v1 0) as [v|]; [|reflexivity].
  destruct (Z.eqb_spec l r) as [e|ne]; simpl; [reflexivity|].
  destruct (nth_error (feature t) i) as [fi|]; [|reflexivity].
  now rewrite (H l r fi eq_refl eq_refl ne eq_refl).
Qed.

Lemma export_loop_ext (t t' : Tree F) names names' ids :
  forall acc,
    (forall i, In i ids -> node_dict t names i = node_dict t' names' i) ->
    export_loop t names ids acc = export_loop t' names' ids acc.
Proof.
  induction ids as [|j rest IH]; intros acc H; simpl; [reflexivity|].
  rewrite (H j (or_introl eq_refl)). unfold obind.
  destruct (node_dict t' names' j); [|reflexivity].
  apply IH. intros i Hi. apply H. now right.
Qed.

(** The feature-name list matters only where an interior node looks into
    it: two lists that give the same answer at the feature index of every
    interior node give the same export.  A leaf never consults the list. *)
Theorem export_uses_names_at_interior_nodes_only :
  forall (t : Tree F) (names names' : list string),
    (forall i l r fi,
       i < node_count t ->
       nth_error (children_left t) i = Some l ->
       nth_error (children_right t) i = Some r -> l <> r ->
       nth_error (feature t) i = Some fi ->
       py_index names fi = py_index names' fi) ->
    export_tree_json t names = export_tree_json t names'.
Proof.
  intros t names names' H. unfold export_tree_json.
  rewrite (@export_loop_ext t t names names'
             (seq 0 (node_count t)) []); [reflexivity|].
  intros i Hi. apply in_seq in Hi. apply node_dict_names_ext.
  intros l r fi. apply H. lia.
Qed.

Lemma node_dict_same_entry (t t' : Tree F) names i :
  same_entry t t' i -> node_dict t names i = node_dict t' names i.
Proof.
  intros (H1 & H2 & H3 & H4 & H5 & H6 & H7).
  unfold node_dict. now rewrite H1, H2, H3, H4, H5, H6, H7.
Qed.

(** The export reads the arrays below [node_count] only: two trees with
    the same node count and the same entries below it export alike,
    whatever their arrays hold further on. *)
Theorem export_reads_below_node_count_only :
  forall (t t' : Tree F) (names : list string),
    node_count t = node_count t' ->
    (forall i, i < node_count t -> same_entry t t' i) ->
    export_tree_json t names = export_tree_json t' names.
Proof.
  intros t t' names Hn H. unfold export_tree_json. rewrite <- Hn.
  rewrite (@export_loop_ext t t' names names
             (seq 0 (node_count t)) []); [reflexivity|].
  intros i Hi. apply in_seq in Hi. apply node_dict_same_entry. apply H. lia.
Qed.


(** A feature index beyond the name list does raise: when an interior
    node below [node_count] has a feature index that is neither a position
    of the list nor a valid negative subscript, nothing is exported. *)
Theorem feature_index_out_of_range_fails :
  forall (t : Tree F) (names : list string) (i : nat) (l r fi : Z),
    i < node_count t ->
    nth_error (children_left t) i = Some l ->
    nth_error (children_right t) i = Some r ->
    l <> r ->
    nth_error (feature t) i = Some fi ->
    (Z.of_nat (List.length names) <= fi \/ fi < - Z.of_nat (List.length names))%Z ->
    export_tree_json t names = None.
Proof.
  intros t names i l r fi Hi El Er ne Ef Hr.
  assert (Hnode : node_dict t names i = None); [|
    unfold export_tree_json, obind;
    assert (Hloop : export_loop t names (seq 0 (node_count t)) [] = None)
      by (apply export_loop_none; exists i; split; [apply in_seq; lia | exact Hnode]);
    now rewrite Hloop ].
  unfold node_dict, obind. rewrite El, Er.
  destruct (nth_error (n_node_samples t) i); [|reflexivity].
  destruct (nth_error (impurity t) i); [|reflexivity].
  destruct (nth_error (value t) i) as [v2|]; [|reflexivity].
  destruct (nth_error v2 0) as [v1|]; [|reflexivity].
  destruct (nth_error v1 0); [|reflexivity].
  destruct (Z.eqb_spec l r); [contradiction|]. simpl. rewrite Ef.
  assert (Hp : py_index names fi = None).
  { unfold py_index. destruct (Z.leb_spec 0 fi).
    - apply nth_error_None. lia.
    - destruct (Z.leb_spec (- Z.of_nat (List.length names)) fi); [lia | reflexivity]. }
  now rewrite Hp.
Qed.
End Facts.

Lemma export_copies_the_arrays_witness :
  exists ns imp v2 v1 v,
    nth_error (n_node_samples Reference.tiny_tree) 0 = Some ns /\
    nth_error (impurity Reference.tiny_tree) 0 = Some imp /\
    nth_error (value Reference.tiny_tree) 0 = Some v2 /\ nth_error v2 0 = Some v1 /\
    nth_error v1 0 = Some v /\
    dict_get (split_dict 0 4 10 7 "MedInc" 0 5 1 2)%Z "id" = Some (JInt (Z.of_nat 0)) /\
    dict_get (split_dict 0 4 10 7 "MedInc" 0 5 1 2)%Z "nSamples" = Some (JInt ns) /\
    dict_get (split_dict 0 4 10 7 "MedInc" 0 5 1 2)%Z "impurity" = Some (JFloat imp) /\
    dict_get (split_dict 0 4 10 7 "MedInc" 0 5 1 2)%Z "value" = Some (JFloat v) /\
    (dict_get (split_dict 0 4 10 7 "MedInc" 0 5 1 2)%Z "isLeaf" = Some (JBool false) ->
     exists fi th,
       nth_error (feature Reference.tiny_tree) 0 = Some fi /\
       nth_error (threshold Reference.tiny_tree) 0 = Some th /\
       dict_get (split_dict 0 4 10 7 "MedInc" 0 5 1 2)%Z "featureIndex" = Some (JInt fi) /\
       dict_get (split_dict 0 4 10 7 "MedInc" 0 5 1 2)%Z "threshold" = Some (JFloat th)).
Proof.
  eapply (@export_copies_the_arrays Z Reference.tiny_tree ["MedInc"%string] _ _ 0 _);
    reflexivity.
Defined.

Lemma export_uses_names_witness :
  export_tree_json Reference.tiny_tree ["MedInc"%string]
  = export_tree_json Reference.tiny_tree ["MedInc"; "HouseAge"; "Latitude"]%string.
Proof.
  apply (@export_uses_names_at_interior_nodes_only Z Reference.tiny_tree
           ["MedInc"%string] ["MedInc"; "HouseAge"; "Latitude"]%string).
  intros [|[|[|i]]] l r fi Hi El Er ne Ef; simpl in *; try lia.
  - injection Ef as <-. reflexivity.
  - injection El as <-. injection Er as <-. now elim ne.
  - injection El as <-. injection Er as <-. now elim ne.
Defined.

Lemma export_reads_below_witness :
  export_tree_json Reference.tiny_tree ["MedInc"%string]
  = export_tree_json Reference.roomy_tree ["MedInc"%string].
Proof.
  apply (@export_reads_below_node_count_only Z Reference.tiny_tree
           Reference.roomy_tree ["MedInc"%string] eq_refl).
  intros [|[|[|i]]] Hi; simpl in Hi; try lia; repeat split.
Defined.


Lemma feature_index_out_of_range_witness :
  export_tree_json Reference.tiny_tree ([] : list string) = None.
Proof.
  apply (@feature_index_out_of_range_fails Z Reference.tiny_tree [] 0 1%Z 2%Z 0%Z);
    simpl; first [reflexivity | lia | discriminate].
Defined.
End ExporterExtra.

(** ** [main] of train_tree.py: when it succeeds and what meta.json records *)

Module MainExtra.
Import Py TrainTree.

Section Facts.
Variable F : Type.
Variable leb : F -> F -> bool.
Variable mean2 : F -> F -> F.
Variable fit : list (list F) -> list F -> Params -> option (Tree F).

Lemma filter_name_fresh (cols : list (string * list F)) name :
  ~ In name (map fst cols) ->
  filter (fun c => String.eqb (fst c) name) cols = [].
Proof.
  induction cols as [|[n v] cols IH]; intros H; simpl in *; [reflexivity|].
  destruct (String.eqb_spec n name) as [->|ne]; [tauto|]. apply IH. tauto.
Qed.

(** With distinct column names, [df[name]] is the column of that name. *)
Lemma df_col_distinct (df : DataFrame F) name col :
  NoDup (column_names df) -> In (name, col) (columns df) ->
  df_col df name = Some col.
Proof.
  unfold df_col, column_names. induction (columns df) as [|[n v] cols IH];
    intros Hnd Hin; simpl in *; [contradiction|].
  inversion Hnd as [|? ? Hn Hr]; subst.
  destruct Hin as [E|Hin].
  - injection E as -> ->. rewrite String.eqb_refl.
    now rewrite (@filter_name_fresh cols name Hn).
  - destruct (String.eqb_spec n name) as [->|ne].
    + exfalso. apply Hn. apply in_map_iff. exists (name, col). auto.
    + now apply IH.
Qed.

Lemma df_col_absent (df : DataFrame F) name :
  ~ In name (column_names df) -> df_col df name = None.
Proof.
  intros H. unfold df_col. now rewrite (@filter_name_fresh (columns df) name H).
Qed.

Lemma feature_stats_total (df : DataFrame F) names : forall acc,
  (forall n, In n names -> df_col df n <> None) ->
  feature_stats leb mean2 df names acc <> None.
Proof.
  induction names as [|n names IH]; intros acc H; simpl; [discriminate|].
  unfold obind. destruct (df_col df n) as [col|] eqn:E.
  - apply IH. intros m Hm. apply H. now right.
  - exfalso. now apply (H n (or_introl eq_refl)).
Qed.

(** When the columns have distinct names (as [read_csv] makes them) and
    [fit] returns only well-formed trees, [main] produces its two
    dictionaries exactly when the target is one of the columns and [fit]
    succeeds on the other columns and the target column; a missing target
    column or a failing fit is the only way it raises. *)
Theorem main_succeeds_iff :
  forall (args : Args) (df : DataFrame F),
    NoDup (column_names df) ->
    (forall X y p t, fit X y p = Some t -> fitted_ok (List.length X) t = true) ->
    (main leb mean2 fit args df <> None <->
     exists y,
       In (a_target args, y) (columns df) /\
       fit (map snd (filter (fun c => negb (String.eqb (fst c) (a_target args)))
                       (columns df)))
           y (params_of args) <> None).
Proof.
  intros args df Hnd Hfit. split.
  - intros H. destruct (main leb mean2 fit args df) as [[tj meta]|] eqn:E; [|congruence].
    destruct (@MainSpec.main_inv F leb mean2 fit args df tj meta E)
      as (X & y & t & fs & EX & Ey & Et & _).
    exists y. split; [now apply MainSpec.df_col_In|].
    unfold df_drop in EX. destruct (existsb _ _); [|discriminate].
    injection EX as <-. simpl in Et. congruence.
  - intros (y & Hy & Hf).
    unfold main, train_tree, obind. fold (names_of args df) (params_of args).
    assert (Hin : In (a_target args) (column_names df)).
    { apply in_map_iff. exists (a_target args, y). auto. }
    unfold df_drop.
    assert (Hex : existsb (String.eqb (a_target args)) (column_names df) = true).
    { apply existsb_exists. exists (a_target args). split; [exact Hin | apply String.eqb_refl]. }
    rewrite Hex. rewrite (@df_col_distinct df (a_target args) y Hnd Hy). simpl.
    destruct (fit _ y (params_of args)) as [t|] eqn:Et; [|congruence].
    pose proof (Hfit _ _ _ _ Et) as Hok. rewrite length_map in Hok.
    assert (Hlen : List.length (filter (fun c => negb (String.eqb (fst c) (a_target args)))
                                  (columns df))
                   = List.length (names_of args df)).
    { unfold names_of, column_names. clear. induction (columns df) as [|[n v] cs IH];
        simpl; [reflexivity|]. destruct (String.eqb n (a_target args)); simpl; congruence. }
    rewrite Hlen in Hok.
    destruct (export_tree_json t (names_of args df)) as [tj|] eqn:Ej.
    + destruct (feature_stats leb mean2 df (names_of args df) []) as [fs|] eqn:Es;
        [discriminate|].
      exfalso. revert Es. apply feature_stats_total.
      intros n Hn. unfold names_of in Hn. apply filter_In in Hn. destruct Hn as [Hn _].
      unfold column_names in Hn. apply in_map_iff in Hn. destruct Hn as ([n' v] & <- & Hc).
      simpl. rewrite (@df_col_distinct df n' v Hnd Hc). discriminate.
    + exfalso. unfold export_tree_json, obind in Ej.
      destruct (export_loop t (names_of args df) (seq 0 (node_count t)) []) eqn:E';
        [discriminate|].
      revert E'. apply TrainTreeSpec.export_loop_total. apply Forall_forall.
      intros i Hi. apply in_seq in Hi.
      eapply TrainTreeSpec.fitted_node_dict; [exact Hok | lia | lia].
Qed.

(** A missing target column stops [main] whatever the fit would do: the
    [KeyError] of [df.drop] comes before the tree is fitted. *)
Theorem missing_target_fails :
  forall (args : Args) (df : DataFrame F),
    ~ In (a_target args) (column_names df) ->
    main leb mean2 fit args df = None.
Proof.
  intros args df H. unfold main, train_tree, df_drop, obind.
  destruct (existsb (String.eqb (a_target args)) (column_names df)) eqn:E; [|reflexivity].
  apply existsb_exists in E. destruct E as (n & Hn & En).
  apply String.eqb_eq in En. subst n. contradiction.
Qed.

(** meta.json describes the fit that produced tree.json: its [params] are
    the hyper-parameters handed to [fit], with [max_depth] null exactly when
    [--max-depth] is 0 or negative and the given depth otherwise; its
    [nTrain] is the number of samples [fit] saw, and its [target] the target
    column name. *)
Theorem meta_records_the_fit :
  forall (args : Args) (df : DataFrame F) (tj meta : dict F),
    Forall (fun c => List.length (snd c) = nrows df) (columns df) ->
    main leb mean2 fit args df = Some (tj, meta) ->
    exists X y t p,
      fit X y p = Some t /\
      export_tree_json t (names_of args df) = Some tj /\
      dict_get meta "nTrain" = Some (JInt (Z.of_nat (List.length y))) /\
      dict_get meta "target" = Some (JStr (a_target args)) /\
      dict_get meta "params" = Some (JDict
        [ ("max_depth"%string, opt_int F (p_max_depth p));
          ("min_samples_leaf"%string, JInt (p_min_samples_leaf p));
          ("random_state"%string, JInt (p_random_state p)) ]) /\
      p_min_samples_leaf p = a_min_samples_leaf args /\
      p_random_state p = a_random_state args /\
      (p_max_depth p = None <-> (a_max_depth args <= 0)%Z) /\
      (forall depth, p_max_depth p = Some depth ->
         depth = a_max_depth args /\ (0 < depth)%Z).
Proof.
  intros args df tj meta Hrect H.
  assert (Hm : dict_get meta "nTrain" = Some (JInt (Z.of_nat (nrows df))) /\
               dict_get meta "target" = Some (JStr (a_target args)) /\
               dict_get meta "params" = Some (JDict
                 [ ("max_depth"%string, opt_int F (p_max_depth (params_of args)));
                   ("min_samples_leaf"%string, JInt (a_min_samples_leaf args));
                   ("random_state"%string, JInt (a_random_state args)) ])).
  { unfold main, obind in H.
    destruct (train_tree _ _ _ _ _ _); [|discriminate].
    destruct (export_tree_json _ _); [|discriminate].
    destruct (feature_stats _ _ _ _ _); [|discriminate].
    destruct (df_col _ _); [|discriminate].
    injection H as _ <-. repeat split. }
  destruct Hm as (M1 & M2 & M3).
  destruct (@MainSpec.main_inv F leb mean2 fit args df tj meta H)
    as (X & y & t & fs & EX & Ey & Et & Ej & _).
  exists (map snd (columns X)), y, t, (params_of args).
  split; [exact Et|]. split; [exact Ej|]. split.
  { apply MainSpec.df_col_In in Ey. rewrite Forall_forall in Hrect.
    specialize (Hrect _ Ey). simpl in Hrect. now rewrite Hrect. }
  split; [exact M2|]. split; [exact M3|].
  split; [reflexivity|]. split; [reflexivity|].
  unfold params_of. simpl. destruct (Z.leb_spec (a_max_depth args) 0); split.
  - tauto.
  - discriminate.
  - split; [discriminate | lia].
  - intros depth E. injection E as <-. split; [reflexivity | lia].
Qed.

Lemma dict_set_fresh (d : dict F) k v :
  ~ In k (map fst d) -> dict_set d k v = d ++ [(k, v)].
Proof.
  induction d as [|[k0 v0] d IH]; intros H; simpl in *; [reflexivity|].
  destruct (String.eqb_spec k0 k) as [->|ne]; [tauto|]. f_equal. apply IH. tauto.
Qed.

Lemma feature_stats_keys (df : DataFrame F) names : forall acc out,
  NoDup names ->
  (forall n, In n names -> ~ In n (map fst acc)) ->
  feature_stats leb mean2 df names acc = Some out ->
  map fst out = map fst acc ++ names.
Proof.
  induction names as [|n names IH]; intros acc out Hnd Hfr H; simpl in H.
  - injection H as <-. now rewrite app_nil_r.
  - unfold obind in H. destruct (df_col df n) as [col|]; [|discriminate].
    inversion Hnd as [|? ? Hn Hr]; subst.
    rewrite dict_set_fresh in H by (apply Hfr; now left).
    apply IH in H; [|exact Hr|].
    + rewrite H, map_app, <- app_assoc. reflexivity.
    + intros m Hm. rewrite map_app. simpl. intros C. apply in_app_or in C.
      destruct C as [C|[C|[]]].
      * apply (Hfr m); [now right | exact C].
      * subst m. contradiction.
Qed.

Lemma feature_stats_cols (df : DataFrame F) names : forall acc out,
  feature_stats leb mean2 df names acc = Some out ->
  forall n, In n names -> df_col df n <> None.
Proof.
  induction names as [|m names IH]; intros acc out H n Hn; simpl in H; [contradiction|].
  unfold obind in H. destruct (df_col df m) as [col|] eqn:E; [|discriminate].
  destruct Hn as [<-|Hn]; [congruence | eapply IH; eauto].
Qed.

Lemma count_names (cols : list (string * list F)) n :
  count_occ string_dec (map fst cols) n
  = List.length (filter (fun c => String.eqb (fst c) n) cols).
Proof.
  induction cols as [|[k v] cols IH]; simpl; [reflexivity|].
  destruct (string_dec k n) as [->|ne].
  - rewrite String.eqb_refl. simpl. now rewrite IH.
  - destruct (String.eqb_spec k n); [contradiction | exact IH].
Qed.

Lemma count_filter_le (f : string -> bool) l n :
  count_occ string_dec (filter f l) n <= count_occ string_dec l n.
Proof.
  induction l as [|x l IH]; simpl; [lia|].
  destruct (f x); simpl; destruct (string_dec x n); lia.
Qed.

(** [featureStats] has one entry per feature name and no other: its keys,
    in order, are the [featureNames] list, which holds no name twice and
    not the target. *)
Theorem feature_stats_keys_are_feature_names :
  forall (args : Args) (df : DataFrame F) (tj meta : dict F),
    main leb mean2 fit args df = Some (tj, meta) ->
    exists fstats,
      dict_get meta "featureStats" = Some (JDict fstats) /\
      dict_get meta "featureNames" = Some (JList (map (@JStr F) (map fst fstats))) /\
      map fst fstats = names_of args df /\
      NoDup (map fst fstats) /\
      ~ In (a_target args) (map fst fstats).
Proof.
  intros args df tj meta H.
  destruct (@MainSpec.main_inv F leb mean2 fit args df tj meta H)
    as (X & y & t & fs & _ & _ & _ & _ & Efs & Hn & Hf & _).
  assert (Hnd : NoDup (names_of args df)).
  { apply (NoDup_count_occ string_dec). intros n.
    destruct (in_dec string_dec n (names_of args df)) as [Hin|Hout].
    - pose proof (feature_stats_cols _ _ _ Efs n Hin) as Hc.
      unfold df_col in Hc.
      pose proof (count_filter_le
                    (fun c => negb (String.eqb c (a_target args))) (column_names df) n) as Hle.
      fold (names_of args df) in Hle. unfold column_names in Hle.
      rewrite count_names in Hle.
      destruct (filter (fun c => String.eqb (fst c) n) (columns df)) as [|c [|c' r]];
        simpl in *; try congruence; lia.
    - apply (count_occ_not_In string_dec) in Hout. lia. }
  assert (Hk : map fst fs = names_of args df).
  { apply (feature_stats_keys _ _ Hnd) in Efs; [exact Efs | intros n _ []]. }
  exists fs. split; [exact Hf|]. rewrite Hk. split; [exact Hn|].
  split; [reflexivity|]. split; [exact Hnd|].
  unfold names_of. intros C. apply filter_In in C. destruct C as [_ C].
  now rewrite String.eqb_refl in C.
Qed.
End Facts.

Lemma ref_frame_distinct : NoDup (column_names Reference.tiny_frame).
Proof. repeat constructor; simpl; intuition discriminate. Qed.

Lemma main_succeeds_iff_witness :
  main Z.leb Reference.mean2Z Reference.ref_fit Reference.tiny_args Reference.tiny_frame
    <> None <->
  exists y,
    In ("MedHouseVal"%string, y) (columns Reference.tiny_frame) /\
    Reference.ref_fit
      (map snd (filter (fun c => negb (String.eqb (fst c) "MedHouseVal"))
                  (columns Reference.tiny_frame)))
      y (params_of Reference.tiny_args) <> None.
Proof.
  exact (@main_succeeds_iff Z Z.leb Reference.mean2Z Reference.ref_fit
           Reference.tiny_args Reference.tiny_frame ref_frame_distinct
           MainSpec.ref_fit_fitted).
Defined.

Lemma missing_target_witness :
  main Z.leb Reference.mean2Z Reference.ref_fit
       (mkArgs "Price" 6 20 42) Reference.tiny_frame = None.
Proof.
  apply (@missing_target_fails Z Z.leb Reference.mean2Z Reference.ref_fit
           (mkArgs "Price" 6 20 42) Reference.tiny_frame).
  simpl. intuition discriminate.
Defined.

Lemma meta_records_the_fit_witness :
  exists X y t p,
    Reference.ref_fit X y p = Some t /\
    export_tree_json t (names_of Reference.tiny_args Reference.tiny_frame)
      = Some (fst Reference.tiny_run) /\
    dict_get (snd Reference.tiny_run) "nTrain" = Some (JInt (Z.of_nat (List.length y))) /\
    dict_get (snd Reference.tiny_run) "target" = Some (JStr "MedHouseVal") /\
    dict_get (snd Reference.tiny_run) "params" = Some (JDict
      [ ("max_depth"%string, opt_int Z (p_max_depth p));
        ("min_samples_leaf"%string, JInt (p_min_samples_leaf p));
        ("random_state"%string, JInt (p_random_state p)) ]) /\
    p_min_samples_leaf p = 20%Z /\
    p_random_state p = 42%Z /\
    (p_max_depth p = None <-> (6 <= 0)%Z) /\
    (forall depth, p_max_depth p = Some depth -> depth = 6%Z /\ (0 < depth)%Z).
Proof.
  apply (@meta_records_the_fit Z Z.leb Reference.mean2Z Reference.ref_fit
           Reference.tiny_args Reference.tiny_frame
           (fst Reference.tiny_run) (snd Reference.tiny_run)).
  - repeat constructor.
  - reflexivity.
Defined.

Lemma feature_stats_keys_witness :
  exists fstats,
    dict_get (snd Reference.tiny_run) "featureStats" = Some (JDict fstats) /\
    dict_get (snd Reference.tiny_run) "featureNames"
      = Some (JList (map (@JStr Z) (map fst fstats))) /\
    map fst fstats = ["MedInc"; "HouseAge"]%string /\
    NoDup (map fst fstats) /\
    ~ In "MedHouseVal"%string (map fst fstats).
Proof.
  apply (@feature_stats_keys_are_feature_names Z Z.leb Reference.mean2Z
           Reference.ref_fit Reference.tiny_args Reference.tiny_frame
           (fst Reference.tiny_run) (snd Reference.tiny_run)).
  reflexivity.
Defined.
End MainExtra.

(** ** The splitter and [main] of prepare_data.py: rows, work and assertions *)

Module SplitterExtra.
Import Effects PrepareData.


(** Positions taken without repetition from positions without repetition
    are without repetition. *)
Lemma iloc_NoDup (idx : list nat) : forall pos idx',
  NoDup idx -> NoDup pos -> iloc idx pos = Ok idx' -> NoDup idx'.
Proof.
  intros pos. induction pos as [|p pos IH]; intros idx' Hi Hp H; simpl in H.
  - injection H as <-. constructor.
  - destruct (nth_error idx p) as [i|] eqn:Ei; [|discriminate].
    destruct (iloc idx pos) as [rest|e] eqn:Er; [|discriminate].
    injection H as <-. inversion Hp as [|? ? Hn Hr]; subst.
    constructor; [|now apply IH].
    intros C.
    assert (Hex : exists q, In q pos /\ nth_error idx q = Some i).
    { clear - Er C. revert rest Er C. induction pos as [|q pos IHp]; intros rest Er C;
        simpl in Er.
      - injection Er as <-. contradiction.
      - destruct (nth_error idx q) as [j|] eqn:Ej; [|discriminate].
        destruct (iloc idx pos) as [rest'|e] eqn:Er'; [|discriminate].
        injection Er as <-. destruct C as [<-|C].
        + exists q. split; [now left | exact Ej].
        + destruct (IHp rest' eq_refl C) as (q' & Hq & Eq). exists q'. split; [now right | exact Eq]. }
    destruct Hex as (q & Hq & Eq).
    assert (p = q).
    { apply (proj1 (NoDup_nth_error idx) Hi).
      - apply nth_error_Some. congruence.
      - congruence. }
    subst q. contradiction.
Qed.

Section Facts.
Variables R F G : Type.
Variable qcut : list F -> Z -> result Categorical.
Variable sss_split :
  G -> option Z -> Float64.float -> Float64.float -> nat -> list Z ->
  result (list nat * list nat).
Variable rs_choice : G -> option Z -> nat -> nat -> list nat.
Variable to_csv : list (R * F) -> string.

Local Abbreviation sfs := (stratified_fixed_sizes qcut sss_split rs_choice).


(** When the split returns each subset without repeated positions and the
    sampler draws without replacement, no row position of the input occurs
    twice in the training subset, nor twice in the test subset. *)
Theorem no_record_twice_in_a_subset :
  forall g (X : list R) (y : list F) a b seed bins train test,
    (forall g rs tp sp n codes itr ite,
       sss_split g rs tp sp n codes = Ok (itr, ite) -> NoDup itr /\ NoDup ite) ->
    (forall g rs len k, NoDup (rs_choice g rs len k)) ->
    outcome (sfs g X y a b seed bins) = Ok (train, test) ->
    exists ptr pte,
      iloc (combine X y) ptr = Ok train /\
      iloc (combine X y) pte = Ok test /\
      NoDup ptr /\ NoDup pte.
Proof.
  intros g X y a b seed bins train test Hsp Hch H.
  apply PrepareDataSpec.sfs_ok_inv in H.
  destruct H as (_ & _ & _ & c & itr & ite & tr0 & te0 & _ & Es & Etr & Ete & Ttr & Tte).
  destruct (Hsp _ _ _ _ _ _ _ _ Es) as [N1 N2].
  assert (P : forall seed size idx raw final,
             NoDup idx -> iloc (combine X y) idx = Ok raw ->
             trimmed rs_choice g seed size raw final ->
             exists idx', iloc (combine X y) idx' = Ok final /\ NoDup idx').
  { intros s size idx raw final Hn E [[_ [_ Ef]]|[_ ->]].
    - destruct (@PrepareDataSpec.iloc_compose _ (combine X y) idx raw _ final E Ef)
        as (idx' & E1 & E2).
      exists idx'. split; [exact E2|]. eapply iloc_NoDup; [exact Hn | apply Hch | exact E1].
    - exists idx. split; assumption. }
  destruct (P _ _ _ _ _ N1 Etr Ttr) as (ptr & E1 & D1).
  destruct (P _ _ _ _ _ N2 Ete Tte) as (pte & E2 & D2).
  exists ptr, pte. repeat split; assumption.
Qed.

(** A call that returns has binned once, split once, and then sampled once
    for each subset that the split returned with more rows than requested,
    in this order and nothing else. *)
Theorem work_of_a_successful_call :
  forall g (X : list R) (y : list F) a b seed bins train test,
    outcome (sfs g X y a b seed bins) = Ok (train, test) ->
    exists c itr ite,
      qcut y bins = Ok c /\
      sss_split g (Some seed) (props_of X a) (props_of X b)
                (List.length X) (cat_codes c) = Ok (itr, ite) /\
      work (sfs g X y a b seed bins)
      = [EvQcut; EvSplit]
        ++ (if (Z.of_nat (List.length itr) >? a)%Z then [EvSample] else [])
        ++ (if (Z.of_nat (List.length ite) >? b)%Z then [EvSample] else []).
Proof.
  intros g X y a b seed bins train test.
  unfold stratified_fixed_sizes, make_stratify_bins, sample, outcome, work,
    bind, assert_, call, lift, ret. fold (props_of X a) (props_of X b).
  destruct (0 <? a)%Z; simpl; [|discriminate].
  destruct (0 <? b)%Z; simpl; [|discriminate].
  destruct (a + b <=? Z.of_nat (List.length X))%Z; simpl; [|discriminate].
  destruct (qcut y bins) as [c|e]; simpl; [|discriminate].
  destruct (sss_split g (Some seed) (props_of X a) (props_of X b)
              (List.length X) (cat_codes c)) as [[itr ite]|e] eqn:Es; simpl; [|discriminate].
  destruct (iloc (combine X y) itr) as [tr0|e] eqn:Etr; simpl; [|discriminate].
  destruct (iloc (combine X y) ite) as [te0|e] eqn:Ete; simpl; [|discriminate].
  apply PrepareDataSpec.iloc_length in Etr. apply PrepareDataSpec.iloc_length in Ete.
  rewrite Etr, Ete. intros H. exists c, itr, ite. split; [reflexivity|]. split; [exact Es|].
  destruct (Z.of_nat (List.length itr) >? a)%Z; simpl in *.
  - destruct (seed_ok (Some seed)); simpl in *; [|discriminate].
    destruct (iloc tr0 _) as [tr1|e]; simpl in *; [|discriminate].
    destruct (Z.of_nat (List.length ite) >? b)%Z; simpl in *; [|reflexivity].
    destruct (seed_ok (Some (seed + 1)%Z)); simpl in *; [|discriminate].
    destruct (iloc te0 _) as [te1|e]; simpl in *; [reflexivity | discriminate].
  - destruct (Z.of_nat (List.length ite) >? b)%Z; simpl in *; [|reflexivity].
    destruct (seed_ok (Some (seed + 1)%Z)); simpl in *; [|discriminate].
    destruct (iloc te0 _) as [te1|e]; simpl in *; [reflexivity | discriminate].
Qed.

(** Which assertion fires: a non-positive size is reported first, with the
    message about positive sizes and whatever the sum is; when both sizes
    are positive and the sum exceeds the number of records, the second
    message comes with the requested sum and the number of records. *)
Theorem assertion_messages :
  forall g (X : list R) (y : list F) a b seed bins,
    ((a <= 0 \/ b <= 0)%Z ->
     stratified_fixed_sizes qcut sss_split rs_choice g X y a b seed bins
     = ([], Raise (AssertionError "train_size and test_size must be > 0" []))) /\
    ((0 < a)%Z -> (0 < b)%Z -> (a + b > Z.of_nat (List.length X))%Z ->
     stratified_fixed_sizes qcut sss_split rs_choice g X y a b seed bins
     = ([], Raise (AssertionError "Requested sizes exceed dataset"
                     [(a + b)%Z; Z.of_nat (List.length X)]))).
Proof.
  intros g X y a b seed bins. unfold stratified_fixed_sizes, bind, assert_, ret. split.
  - intros H. destruct (Z.ltb_spec 0 a); simpl; [|reflexivity].
    destruct (Z.ltb_spec 0 b); simpl; [lia | reflexivity].
  - intros Ha Hb Hs. destruct (Z.ltb_spec 0 a); [|lia]. destruct (Z.ltb_spec 0 b); [|lia].
    simpl. destruct (Z.leb_spec (a + b) (Z.of_nat (List.length X))); [lia | reflexivity].
Qed.

(** [main] checks the sum against the dataset size but not the signs: a
    request with a zero or negative size whose sum fits the dataset passes
    the check of [main] and ends in the splitter's assertion, before any
    binning or sampling; no file content is produced. *)
Theorem main_lets_nonpositive_sizes_through :
  forall g (X : list R) (y : list F) a b seed bins,
    (a <= 0 \/ b <= 0)%Z ->
    (a + b <= Z.of_nat (List.length X))%Z ->
    main qcut sss_split rs_choice to_csv g (mkArgs a b seed bins) X y
    = ([], Raise (AssertionError "train_size and test_size must be > 0" [])).
Proof.
  intros g X y a b seed bins Hs Hn. unfold main. simpl.
  destruct (Z.gtb_spec (a + b) (Z.of_nat (List.length X))); [lia|].
  unfold stratified_fixed_sizes, bind, assert_, ret.
  destruct (Z.ltb_spec 0 a); simpl; [|reflexivity].
  destruct (Z.ltb_spec 0 b); simpl; [lia | reflexivity].
Qed.

End Facts.

Lemma ref_split_NoDup g rs tp sp n codes itr ite :
  Reference.ref_split g rs tp sp n codes = Ok (itr, ite) -> NoDup itr /\ NoDup ite.
Proof.
  intros H. apply PrepareDataSpec.ref_split_inv in H.
  destruct H as (ntr & nte & _ & -> & ->). split; apply seq_NoDup.
Qed.

Lemma ref_choice_NoDup g rs len k : NoDup (Reference.ref_choice g rs len k).
Proof.
  unfold Reference.ref_choice. destruct rs; [|destruct (Nat.even g)]; apply seq_NoDup.
Qed.


Lemma no_record_twice_witness :
  exists ptr pte,
    iloc (combine (Reference.table 25) (Reference.targets 25)) ptr
      = Ok (fst (Reference.run_subsets 25 10 7 42 2)) /\
    iloc (combine (Reference.table 25) (Reference.targets 25)) pte
      = Ok (snd (Reference.run_subsets 25 10 7 42 2)) /\
    NoDup ptr /\ NoDup pte.
Proof.
  apply (@no_record_twice_in_a_subset nat Z nat Reference.ref_qcut Reference.ref_split
           Reference.ref_choice 0 (Reference.table 25) (Reference.targets 25)
           10%Z 7%Z 42%Z 2%Z _ _ ref_split_NoDup ref_choice_NoDup).
  reflexivity.
Defined.

Lemma work_of_a_successful_call_witness :
  exists c itr ite,
    Reference.ref_qcut (Reference.targets 25) 2 = Ok c /\
    Reference.ref_split 0 (Some 42%Z) (props_of (Reference.table 25) 10)
      (props_of (Reference.table 25) 7) (List.length (Reference.table 25))
      (cat_codes c) = Ok (itr, ite) /\
    work (Reference.run 25 10 7 42 2)
    = [EvQcut; EvSplit]
      ++ (if (Z.of_nat (List.length itr) >? 10)%Z then [EvSample] else [])
      ++ (if (Z.of_nat (List.length ite) >? 7)%Z then [EvSample] else []).
Proof.
  apply (@work_of_a_successful_call nat Z nat Reference.ref_qcut Reference.ref_split
           Reference.ref_choice 0 (Reference.table 25) (Reference.targets 25)
           10%Z 7%Z 42%Z 2%Z
           (fst (Reference.run_subsets 25 10 7 42 2))
           (snd (Reference.run_subsets 25 10 7 42 2))).
  reflexivity.
Defined.

Lemma assertion_messages_witness :
  Reference.run 25 0 7 42 2
    = ([], Raise (AssertionError "train_size and test_size must be > 0" [])) /\
  Reference.run 25 20 7 42 2
    = ([], Raise (AssertionError "Requested sizes exceed dataset" [27%Z; 25%Z])).
Proof.
  split.
  - apply (proj1 (@assertion_messages nat Z nat Reference.ref_qcut Reference.ref_split
                    Reference.ref_choice 0 (Reference.table 25) (Reference.targets 25)
                    0%Z 7%Z 42%Z 2%Z)). lia.
  - apply (proj2 (@assertion_messages nat Z nat Reference.ref_qcut Reference.ref_split
                    Reference.ref_choice 0 (Reference.table 25) (Reference.targets 25)
                    20%Z 7%Z 42%Z 2%Z)); simpl; lia.
Defined.

Lemma main_lets_nonpositive_witness :
  main Reference.ref_qcut Reference.ref_split Reference.ref_choice
       Reference.ref_to_csv 0 (mkArgs 0 7 42 2)
       (Reference.table 25) (Reference.targets 25)
  = ([], Raise (AssertionError "train_size and test_size must be > 0" [])).
Proof.
  apply (@main_lets_nonpositive_sizes_through nat Z nat Reference.ref_qcut
           Reference.ref_split Reference.ref_choice Reference.ref_to_csv 0
           (Reference.table 25) (Reference.targets 25) 0%Z 7%Z 42%Z 2%Z);
    simpl; lia.
Defined.
End SplitterExtra.
